(** * wifi_speed.py: link-speed probing and speed-test result normalisation

    A shallow embedding of [src/wifi_speed.py].  Python text is a Rocq
    [string] (one [ascii] per code point, so the model covers text whose
    code points are below 256); Python exceptions are an explicit error
    type threaded through a small result monad; the operating system, the
    speed-test library and [json.loads] are oracles passed as arguments. *)

From Stdlib Require Import ZArith String Ascii List Bool Lia.
From Stdlib Require Import Floats.SpecFloat.
From Stdlib Require Import DecimalString.
From stdpp Require Import base gmap strings list.

Local Open Scope string_scope.
Local Open Scope list_scope.
Local Open Scope Z_scope.

(** ** Python exceptions and the result monad *)

Module Py.

(** The subclasses of [Exception] the program can meet. *)
Inductive exn : Type :=
  | ValueError
  | TypeError
  | KeyError
  | AttributeError
  | OverflowError
  | ImportError
  | NameError (name : string)
  | RuntimeError (msg : string)
  | TimeoutExpired
  | OSError
  | JSONDecodeError.

Inductive res (A : Type) : Type :=
  | Ok (a : A)
  | Raise (e : exn).
Arguments Ok {A} a.
Arguments Raise {A} e.

Definition bind {A B : Type} (m : res A) (k : A -> res B) : res B :=
  match m with
  | Ok a => k a
  | Raise e => Raise e
  end.

(** [try: body / except Exception: handler]. *)
Definition try_except {A : Type} (body : res A) (handler : exn -> res A) : res A :=
  match body with
  | Ok a => Ok a
  | Raise e => handler e
  end.

Definition is_ok {A : Type} (m : res A) : bool :=
  match m with Ok _ => true | Raise _ => false end.

End Py.
Import Py.

Notation "'let*' x ':=' m 'in' k" := (Py.bind m (fun x => k))
  (at level 10, x name, m at level 100, k at level 200).

(** ** Characters and text *)

Module Text.

Definition code (c : ascii) : N := N_of_ascii c.

Definition in_range (lo hi : N) (c : ascii) : bool :=
  ((lo <=? code c) && (code c <=? hi))%N.

Definition is_digit (c : ascii) : bool := in_range 48 57 c.
Definition is_upper (c : ascii) : bool := in_range 65 90 c.
Definition is_lower (c : ascii) : bool := in_range 97 122 c.

(** ASCII case folding, as [re.IGNORECASE] and the float grammar use it. *)
Definition lower (c : ascii) : ascii :=
  if is_upper c then ascii_of_N (code c + 32) else c.

Definition eqb_ci (a b : ascii) : bool := Ascii.eqb (lower a) (lower b).

(** [str.isspace] on the code points below 256. *)
Definition is_space (c : ascii) : bool :=
  in_range 9 13 c || in_range 28 32 c
  || N.eqb (code c) 133 || N.eqb (code c) 160.

Definition chars (s : string) : list ascii := list_ascii_of_string s.
Definition text (l : list ascii) : string := string_of_list_ascii l.

Fixpoint lstrip_by (p : ascii -> bool) (l : list ascii) : list ascii :=
  match l with
  | c :: l' => if p c then lstrip_by p l' else l
  | [] => []
  end.

Definition strip_by (p : ascii -> bool) (l : list ascii) : list ascii :=
  rev (lstrip_by p (rev (lstrip_by p l))).

(** [str.strip()]. *)
Definition strip (s : string) : string := text (strip_by is_space (chars s)).

(** [str.startswith]. *)
Fixpoint starts_with (p l : list ascii) : bool :=
  match p, l with
  | [], _ => true
  | a :: p', b :: l' => Ascii.eqb a b && starts_with p' l'
  | _ :: _, [] => false
  end.

Definition startswith (s prefix : string) : bool :=
  starts_with (chars prefix) (chars s).

End Text.

(** ** Python floats: IEEE 754 binary64 *)

Module PyFloat.

Definition prec : Z := 53.
Definition emax : Z := 1024.

Definition float : Type := spec_float.

Definition is_zero (f : float) : bool :=
  match f with S754_zero _ => true | _ => false end.

(** [float(n)] for a Python int: round to nearest even, [OverflowError]
    when the result is not finite. *)
Definition of_Z (n : Z) : res float :=
  match binary_normalize prec emax n 0 false with
  | S754_infinity _ => Raise OverflowError
  | f => Ok f
  end.

(** The int a float operand is converted from in mixed arithmetic. *)
Definition of_small_Z (n : Z) : float := binary_normalize prec emax n 0 false.

Definition mul (x y : float) : float := SFmul prec emax x y.

(** *** [float(s)] for a str *)

(** Whitespace [float()] strips: the ASCII blanks, and the two non-ASCII
    spaces below 256, which it first rewrites to a blank. *)
Definition is_blank (c : ascii) : bool :=
  Text.in_range 9 13 c || N.eqb (Text.code c) 32
  || N.eqb (Text.code c) 133 || N.eqb (Text.code c) 160.

Definition underscore : ascii := "_"%char.

(** Underscores are accepted only between two digits, and are dropped. *)
Fixpoint drop_underscores (prev : option ascii) (l : list ascii) : option (list ascii) :=
  match l with
  | [] => match prev with
          | Some p => if Ascii.eqb p underscore then None else Some []
          | None => Some []
          end
  | c :: l' =>
      if Ascii.eqb c underscore then
        match prev with
        | Some p => if Text.is_digit p then drop_underscores (Some c) l' else None
        | None => None
        end
      else
        match prev with
        | Some p =>
            if Ascii.eqb p underscore && negb (Text.is_digit c) then None
            else option_map (cons c) (drop_underscores (Some c) l')
        | None => option_map (cons c) (drop_underscores (Some c) l')
        end
  end.

(** A leading sign: [true] for minus. *)
Definition take_sign (l : list ascii) : bool * list ascii :=
  match l with
  | c :: l' =>
      if Ascii.eqb c "-"%char then (true, l')
      else if Ascii.eqb c "+"%char then (false, l')
      else (false, l)
  | [] => (false, [])
  end.

(** The longest prefix of digits, and the rest. *)
Fixpoint take_digits (l : list ascii) : list ascii * list ascii :=
  match l with
  | c :: l' =>
      if Text.is_digit c then
        let '(d, r) := take_digits l' in (c :: d, r)
      else ([], l)
  | [] => ([], [])
  end.

Definition digit_value (c : ascii) : Z := Z.of_N (Text.code c) - 48.

Definition digits_value (d : list ascii) : Z :=
  fold_left (fun acc c => 10 * acc + digit_value c) d 0.

Definition lower_text (l : list ascii) : string := Text.text (map Text.lower l).

(** A decimal literal read as [mantissa * 10 ^ exponent], with the number
    of mantissa digits. *)
Record decimal : Type := Decimal
  { dec_mantissa : Z; dec_digits : Z; dec_exponent : Z }.

Definition parse_exponent (l : list ascii) : option Z :=
  match l with
  | [] => Some 0
  | c :: l' =>
      if Text.eqb_ci c "e"%char then
        let '(neg, l'') := take_sign l' in
        match take_digits l'' with
        | ((_ :: _) as d, []) => Some (if neg then - digits_value d else digits_value d)
        | _ => None
        end
      else None
  end.

Definition parse_decimal (l : list ascii) : option decimal :=
  let '(ip, r) := take_digits l in
  let '(fp, r') :=
    match r with
    | c :: r0 => if Ascii.eqb c "."%char then take_digits r0 else ([], r)
    | [] => ([], [])
    end in
  match ip ++ fp with
  | [] => None
  | ds =>
      match parse_exponent r' with
      | Some e =>
          Some (Decimal (digits_value ds) (Z.of_nat (length ds))
                        (e - Z.of_nat (length fp)))
      | None => None
      end
  end.

(** Correct rounding of [m * 10 ^ e] to binary64.  Literals far outside
    the binary64 range are settled without computing the power. *)
Definition round_decimal (neg : bool) (d : decimal) : float :=
  let m := dec_mantissa d in
  let e := dec_exponent d in
  if m =? 0 then S754_zero neg
  else if 0 <=? e then
    if 400 <? e then S754_infinity neg
    else binary_normalize prec emax (if neg then - (m * 10 ^ e) else m * 10 ^ e) 0 neg
  else if dec_digits d + e <? - 400 then S754_zero neg
  else
    let den := 10 ^ (- e) in
    let s := Z.max 0 (Z.log2 den + 64 - Z.log2 m) in
    let '(q, r) := Z.div_eucl (Z.shiftl m s) den in
    binary_round_aux prec emax neg q (- s) (new_location den r).

Definition of_chars (l : list ascii) : option float :=
  match drop_underscores None (Text.strip_by is_blank l) with
  | None => None
  | Some l1 =>
      let '(neg, l2) := take_sign l1 in
      let w := lower_text l2 in
      if String.eqb w "inf" || String.eqb w "infinity" then Some (S754_infinity neg)
      else if String.eqb w "nan" then Some S754_nan
      else option_map (round_decimal neg) (parse_decimal l2)
  end.

Definition of_str (s : string) : res float :=
  match of_chars (Text.chars s) with
  | Some f => Ok f
  | None => Raise ValueError
  end.

End PyFloat.

(** ** Regular expressions: the part of Python's [re] the program uses *)

Module Re.

(** One member of a bracketed character set, or an escape class. *)
Inductive item : Type :=
  | IChar (c : ascii)
  | IDigit
  | ISpace.

Inductive regex : Type :=
  | Eps
  | Chr (c : ascii)
  | Any
  | Class (items : list item)
  | Seq (r1 r2 : regex)
  | Alt (r1 r2 : regex)
  | Star (r : regex)
  | Plus (r : regex)
  | Opt (r : regex)
  | Group (n : nat) (r : regex).

(** *** Reading a pattern *)

Definition is_alnum (c : ascii) : bool :=
  Text.is_digit c || Text.is_upper c || Text.is_lower c.

(** What follows a backslash: [\d], [\s], or an escaped punctuation
    character, which stands for itself.  Other escapes are not covered. *)
Definition escape (c : ascii) : option item :=
  if Ascii.eqb c "d"%char then Some IDigit
  else if Ascii.eqb c "s"%char then Some ISpace
  else if is_alnum c then None
  else if Text.in_range 33 126 c then Some (IChar c)
  else None.

(** The members of a set, up to the closing bracket.  Ranges, negated
    sets and a set that opens with a closing bracket are not covered. *)
Fixpoint parse_set (l : list ascii) : option (list item * list ascii) :=
  match l with
  | [] => None
  | c :: l' =>
      if Ascii.eqb c "]"%char then Some ([], l')
      else if Ascii.eqb c "-"%char || Ascii.eqb c "^"%char || Ascii.eqb c "["%char then None
      else if Ascii.eqb c "\"%char then
        match l' with
        | e :: l'' =>
            match escape e, parse_set l'' with
            | Some i, Some (its, r) => Some (i :: its, r)
            | _, _ => None
            end
        | [] => None
        end
      else
        match parse_set l' with
        | Some (its, r) => Some (IChar c :: its, r)
        | None => None
        end
  end.

Definition one_of (cs : string) (c : ascii) : bool :=
  existsb (Ascii.eqb c) (Text.chars cs).

(** A postfix quantifier.  Lazy, possessive and counted repetition are not
    covered. *)
Definition quantified (a : regex) (l : list ascii) : option (regex * list ascii) :=
  match l with
  | q :: l' =>
      if one_of "*+?" q then
        match l' with
        | q' :: _ => if one_of "*+?{" q' then None
                     else Some ((if Ascii.eqb q "*"%char then Star a
                                 else if Ascii.eqb q "+"%char then Plus a
                                 else Opt a), l')
        | [] => Some ((if Ascii.eqb q "*"%char then Star a
                       else if Ascii.eqb q "+"%char then Plus a
                       else Opt a), l')
        end
      else if Ascii.eqb q "{"%char then None
      else Some (a, l)
  | [] => Some (a, [])
  end.

Definition of_item (i : item) : regex :=
  match i with
  | IChar c => Chr c
  | _ => Class [i]
  end.

(** Recursive descent: alternatives, sequences, atoms.  [n] is the number
    the next opening parenthesis gets. *)
Fixpoint parse_alt (fuel : nat) (l : list ascii) (n : nat)
  : option (regex * list ascii * nat) :=
  match fuel with
  | O => None
  | S f =>
      match parse_seq f l n with
      | Some (r1, l1, n1) =>
          match l1 with
          | c :: l2 =>
              if Ascii.eqb c "|"%char then
                match parse_alt f l2 n1 with
                | Some (r2, l3, n3) => Some (Alt r1 r2, l3, n3)
                | None => None
                end
              else Some (r1, l1, n1)
          | [] => Some (r1, [], n1)
          end
      | None => None
      end
  end
with parse_seq (fuel : nat) (l : list ascii) (n : nat)
  : option (regex * list ascii * nat) :=
  match fuel with
  | O => None
  | S f =>
      match l with
      | [] => Some (Eps, [], n)
      | c :: _ =>
          if one_of ")|" c then Some (Eps, l, n)
          else
            match parse_atom f l n with
            | Some (a, l1, n1) =>
                match quantified a l1 with
                | Some (q, l2) =>
                    match parse_seq f l2 n1 with
                    | Some (Eps, l3, n3) => Some (q, l3, n3)
                    | Some (r, l3, n3) => Some (Seq q r, l3, n3)
                    | None => None
                    end
                | None => None
                end
            | None => None
            end
      end
  end
with parse_atom (fuel : nat) (l : list ascii) (n : nat)
  : option (regex * list ascii * nat) :=
  match fuel with
  | O => None
  | S f =>
      match l with
      | [] => None
      | c :: l' =>
          if Ascii.eqb c "("%char then
            match l' with
            | q :: _ =>
                if Ascii.eqb q "?"%char then None
                else
                  match parse_alt f l' (S n) with
                  | Some (r, c' :: l1, n1) =>
                      if Ascii.eqb c' ")"%char then Some (Group n r, l1, n1) else None
                  | _ => None
                  end
            | [] => None
            end
          else if Ascii.eqb c "["%char then
            match parse_set l' with
            | Some ((_ :: _) as its, l1) => Some (Class its, l1, n)
            | _ => None
            end
          else if Ascii.eqb c "\"%char then
            match l' with
            | e :: l1 =>
                match escape e with
                | Some i => Some (of_item i, l1, n)
                | None => None
                end
            | [] => None
            end
          else if Ascii.eqb c "."%char then Some (Any, l', n)
          else if one_of "*+?{}^$)|" c then None
          else Some (Chr c, l', n)
      end
  end.

(** [re.compile]: [None] stands for a pattern outside the covered syntax. *)
Definition compile (pattern : string) : option regex :=
  let l := Text.chars pattern in
  match parse_alt (4 * length l + 4) l 1 with
  | Some (r, [], _) => Some r
  | _ => None
  end.

(** *** Matching *)

(** Captured groups, most recent first. *)
Definition captures : Type := list (nat * list ascii).

Definition cont : Type := list ascii -> captures -> option captures.

Definition char_matches (ignorecase : bool) (c x : ascii) : bool :=
  if ignorecase then Text.eqb_ci c x else Ascii.eqb c x.

Definition item_matches (ignorecase : bool) (i : item) (x : ascii) : bool :=
  match i with
  | IChar c => char_matches ignorecase c x
  | IDigit => Text.is_digit x
  | ISpace => Text.is_space x
  end.

Definition newline : ascii := ascii_of_N 10.

(** One character against a one-character node. *)
Definition single (p : ascii -> bool) (s : list ascii) (caps : captures) (k : cont)
  : option captures :=
  match s with
  | x :: s' => if p x then k s' caps else None
  | [] => None
  end.

(** Greedy repetition of [step]: one more round first, then the rest of
    the pattern; a round that consumes nothing ends the repetition. *)
Fixpoint repeat (step : list ascii -> captures -> cont -> option captures)
  (fuel : nat) (s : list ascii) (caps : captures) (k : cont) : option captures :=
  match fuel with
  | O => k s caps
  | S f =>
      match step s caps
              (fun s1 c1 =>
                 if (length s1 <? length s)%nat then repeat step f s1 c1 k else None) with
      | Some c => Some c
      | None => k s caps
      end
  end.

(** Backtracking matcher in continuation-passing style: the first choice
    that lets the rest of the pattern succeed wins, as in [re]. *)
Fixpoint run (ignorecase : bool) (r : regex) (s : list ascii) (caps : captures)
  (k : cont) {struct r} : option captures :=
  match r with
  | Eps => k s caps
  | Chr c => single (char_matches ignorecase c) s caps k
  | Any => single (fun x => negb (Ascii.eqb x newline)) s caps k
  | Class items =>
      single (fun x => existsb (fun i => item_matches ignorecase i x) items) s caps k
  | Seq r1 r2 =>
      run ignorecase r1 s caps (fun s1 c1 => run ignorecase r2 s1 c1 k)
  | Alt r1 r2 =>
      match run ignorecase r1 s caps k with
      | Some c => Some c
      | None => run ignorecase r2 s caps k
      end
  | Star r1 => repeat (run ignorecase r1) (S (length s)) s caps k
  | Plus r1 =>
      run ignorecase r1 s caps
        (fun s1 c1 => repeat (run ignorecase r1) (S (length s1)) s1 c1 k)
  | Opt r1 =>
      match run ignorecase r1 s caps k with
      | Some c => Some c
      | None => k s caps
      end
  | Group n r1 =>
      run ignorecase r1 s caps
        (fun s1 c1 => k s1 ((n, firstn (length s - length s1) s) :: c1))
  end.

(** A match anchored at the start of [s]; group 0 is the whole match. *)
Definition match_here (ignorecase : bool) (r : regex) (s : list ascii)
  : option captures :=
  run ignorecase r s []
    (fun s1 c1 => Some ((O, firstn (length s - length s1) s) :: c1)).

(** The leftmost position where the pattern matches. *)
Fixpoint scan (ignorecase : bool) (r : regex) (s : list ascii) : option captures :=
  match match_here ignorecase r s with
  | Some c => Some c
  | None =>
      match s with
      | _ :: s' => scan ignorecase r s'
      | [] => None
      end
  end.

Inductive flag : Type := NOFLAG | IGNORECASE.

Definition ignores_case (f : flag) : bool :=
  match f with IGNORECASE => true | NOFLAG => false end.

(** [re.search(pattern, string, flags)]: the match object, or [None]. *)
Definition search (pattern : string) (text : string) (f : flag) : option captures :=
  match compile pattern with
  | Some r => scan (ignores_case f) r (Text.chars text)
  | None => None
  end.

(** [m.group(n)]. *)
Fixpoint group (m : captures) (n : nat) : option string :=
  match m with
  | (i, s) :: m' => if Nat.eqb i n then Some (Text.text s) else group m' n
  | [] => None
  end.

(** Whether group [n] is among the captures. *)
Definition has_group (n : nat) (m : captures) : bool :=
  existsb (fun p => Nat.eqb (fst p) n) m.

(** Whether every match of [r] goes through group [n]. *)
Fixpoint always_sets (n : nat) (r : regex) : bool :=
  match r with
  | Group i r1 => Nat.eqb i n || always_sets n r1
  | Seq r1 r2 => always_sets n r1 || always_sets n r2
  | Alt r1 r2 => always_sets n r1 && always_sets n r2
  | Plus r1 => always_sets n r1
  | _ => false
  end.

(** What the matcher owes its continuation: the result comes from a call
    of [k], on captures that kept group [n] if they had it and that have
    it if [sets] holds. *)
Definition reaches (n : nat) (sets : bool) (caps : captures) (k : cont)
  (out : captures) : Prop :=
  exists s1 c1,
    k s1 c1 = Some out
    /\ (has_group n caps = true -> has_group n c1 = true)
    /\ (sets = true -> has_group n c1 = true).

(** Whether [pattern] compiles to an expression that always sets [n]. *)
Definition pattern_sets (n : nat) (pattern : string) : bool :=
  match compile pattern with
  | Some r => always_sets n r
  | None => true
  end.

End Re.

(** ** Child processes *)

Module Subprocess.

Inductive command : Type :=
  | Shell (line : string)
  | Argv (args : list string).

(** The keyword arguments of [subprocess.run] the program passes. *)
Record kwargs : Type := Kwargs
  { shell : bool; capture_output : bool; text : bool; timeout : Z }.

(** A [CompletedProcess]. *)
Record completed : Type := Completed
  { returncode : Z; stdout : string; stderr : string }.

(** What one call of [subprocess.run] does: the operating system's answer,
    which is a completed process whatever its exit status (no [check=True]
    anywhere in the program), or an exception such as [TimeoutExpired] or
    [OSError]. *)
Definition runner : Type := command -> kwargs -> res completed.

End Subprocess.
Import Subprocess.

(** ** Link speed helpers *)

Definition float : Type := PyFloat.float.

(** [float(m.group(n))]; a group that took no part in the match is [None]. *)
Definition float_group (m : Re.captures) (n : nat) : res float :=
  match Re.group m n with
  | Some s => PyFloat.of_str s
  | None => Raise TypeError
  end.

(** Truth value of an optional float, as [if speed:] takes it. *)
Definition speed_truthy (speed : option float) : bool :=
  match speed with
  | Some f => negb (PyFloat.is_zero f)
  | None => false
  end.

Definition run_cmd_kwargs : kwargs :=
  {| shell := true; capture_output := true; text := true; timeout := 6 |}.

Definition run_cmd (run : runner) (cmd : string) : res string :=
  try_except
    (let* proc := run (Shell cmd) run_cmd_kwargs in
     Ok (stdout proc ++ stderr proc)%string)
    (fun _ => Ok "").

Definition parse_windows_netsh (output : string) : res (option float) :=
  match Re.search "Receive rate \\(Mbps\\)\\s*:\\s*([\\d\\.]+)" output Re.IGNORECASE with
  | Some m => let* f := float_group m 1 in Ok (Some f)
  | None =>
      match Re.search "Transmit rate \\(Mbps\\)\\s*:\\s*([\\d\\.]+)" output Re.IGNORECASE with
      | Some m2 => let* f := float_group m2 1 in Ok (Some f)
      | None =>
          match Re.search "([\\d\\.]+)\\s*Mbps" output Re.IGNORECASE with
          | Some m3 => let* f := float_group m3 1 in Ok (Some f)
          | None => Ok None
          end
      end
  end.

Definition get_windows_link_speed (run : runner) : res (option float) :=
  let* out := run_cmd run "netsh wlan show interfaces" in
  parse_windows_netsh out.

Definition parse_linux_iwconfig (output : string) : res (option float) :=
  match Re.search "Bit Rate[:=]\\s*([\\d\\.]+)\\s*Mb" output Re.IGNORECASE with
  | Some m => let* f := float_group m 1 in Ok (Some f)
  | None =>
      match Re.search "(tx|rx) bitrate[:=]?\\s*([\\d\\.]+)\\s*M" output Re.IGNORECASE with
      | Some m2 => let* f := float_group m2 2 in Ok (Some f)
      | None => Ok None
      end
  end.

Definition get_linux_link_speed (run : runner) : res (option float) :=
  let* out := run_cmd run "iwconfig 2>/dev/null" in
  let* speed := parse_linux_iwconfig out in
  if speed_truthy speed then Ok speed
  else
    let* out2 := run_cmd run "iw dev wlan0 link 2>/dev/null" in
    let* speed := parse_linux_iwconfig out2 in
    if speed_truthy speed then Ok speed
    else
      let* out3 :=
        run_cmd run "nmcli -t -f ACTIVE,SSID,BITRATE dev wifi | grep '^yes' 2>/dev/null" in
      match Re.search "([\\d\\.]+)M" out3 Re.NOFLAG with
      | Some m => let* f := float_group m 1 in Ok (Some f)
      | None => Ok None
      end.

Definition parse_macos_airport (output : string) : res (option float) :=
  match Re.search "lastTxRate:\\s*([\\d\\.]+)" output Re.NOFLAG with
  | Some m => let* f := float_group m 1 in Ok (Some f)
  | None =>
      match Re.search "([\\d\\.]+)\\s*Mb/s" output Re.NOFLAG with
      | Some m2 => let* f := float_group m2 1 in Ok (Some f)
      | None => Ok None
      end
  end.

Definition airport_path : string :=
  "/System/Library/PrivateFrameworks/Apple80211.framework/Versions/Current/Resources/airport".

Definition get_macos_link_speed (run : runner) : res (option float) :=
  let* out := run_cmd run (airport_path ++ " -I 2>/dev/null")%string in
  let* speed := parse_macos_airport out in
  Ok speed.

(** [p] is [sys.platform]. *)
Definition get_link_speed (run : runner) (p : string) : res (option float) :=
  try_except
    (if Text.startswith p "win" then get_windows_link_speed run
     else if Text.startswith p "linux" then get_linux_link_speed run
     else if Text.startswith p "darwin" then get_macos_link_speed run
     else Ok None)
    (fun _ => Ok None).

(** ** JSON documents as Python objects *)

Module Json.

(** What [json.loads] builds: [None], [bool], [int], [float], [str],
    [list] and [dict] with [str] keys. *)
#[warnings="-register-all"]
Inductive value : Type :=
  | Null
  | Bool (b : bool)
  | Int (n : Z)
  | Float (f : float)
  | Str (s : string)
  | Arr (l : list value)
  | Obj (m : gmap string value).

(** Truth value, as [or] and [if] take it. *)
Definition truthy (v : value) : bool :=
  match v with
  | Null => false
  | Bool b => b
  | Int n => negb (n =? 0)
  | Float f => negb (PyFloat.is_zero f)
  | Str s => negb (String.eqb s "")
  | Arr l => negb (Nat.eqb (length l) 0)
  | Obj m => negb (Nat.eqb (size m) 0)
  end.

(** [v is None]. *)
Definition is_none (v : value) : bool :=
  match v with Null => true | _ => false end.

(** [d.get(key, default)]; only a [dict] has the method. *)
Definition get (d : value) (key : string) (default : value) : res value :=
  match d with
  | Obj m => Ok (match m !! key with Some v => v | None => default end)
  | _ => Raise AttributeError
  end.

(** [d[key]] for a [str] key. *)
Definition getitem (d : value) (key : string) : res value :=
  match d with
  | Obj m => match m !! key with Some v => Ok v | None => Raise KeyError end
  | _ => Raise TypeError
  end.

(** [float(v)]. *)
Definition to_float (v : value) : res float :=
  match v with
  | Int n => PyFloat.of_Z n
  | Bool b => PyFloat.of_Z (if b then 1 else 0)
  | Float f => Ok f
  | Str s => PyFloat.of_str s
  | Null | Arr _ | Obj _ => Raise TypeError
  end.

(** [x or y], with [y] evaluated only when [x] is false. *)
Definition or_else (x : value) (y : res value) : res value :=
  if truthy x then Ok x else y.

End Json.
Import Json.

(** ** Speedtest helpers *)

Record SpeedTestResult : Type := Result
  { download_bps : float; upload_bps : float; ping_ms : float; timestamp : Z }.

(** The in-process [speedtest] library, one field per step of the primary
    path. *)
Record library : Type := Library
  { import_Speedtest : res unit;
    construct : res unit;
    get_best_server : res unit;
    download : res float;
    upload : res float;
    results_ping : res float }.

(** The host of [run_speedtest]: the library, [shutil.which], the
    [n]-th [subprocess.run] of the call, [json.loads] and the clock. *)
Record host : Type := Host
  { lib : library;
    which : string -> option string;
    spawn : nat -> runner;
    json_loads : string -> res value;
    now : Z }.

Definition callback : Type := option (string -> res unit).

(** [if progress_callback: progress_callback(msg)]. *)
Definition notify (progress_callback : callback) (msg : string) : res unit :=
  match progress_callback with
  | Some f => f msg
  | None => Ok tt
  end.

Definition module_path (h : host) (progress_callback : callback) : res SpeedTestResult :=
  let s := lib h in
  let* _ := import_Speedtest s in
  let* _ := construct s in
  let* _ := get_best_server s in
  let* _ := notify progress_callback "Running download test..." in
  let* dl := download s in
  let* _ := notify progress_callback "Running upload test..." in
  let* ul := upload s in
  let* ping := results_ping s in
  Ok {| download_bps := dl; upload_bps := ul; ping_ms := ping; timestamp := now h |}.

(** Line 158. *)
Definition lookup_ping (data : value) : res value :=
  let* a := get data "ping" Null in
  or_else a
    (let* server := get data "server" (Obj ∅) in
     let* b := get server "ping" Null in
     or_else b
       (let* l := get data "latency" (Int 0) in
        let* f := to_float l in
        Ok (Float f))).

(** Lines 159 and 160. *)
Definition lookup_rate (data : value) (k1 k2 k3 : string) : res value :=
  let* a := get data k1 Null in
  or_else a
    (let* b := get data k2 Null in
     or_else b (get data k3 Null)).

Definition lookup_download (data : value) : res value :=
  lookup_rate data "download" "bytes_sent" "downloadBytes".

Definition lookup_upload (data : value) : res value :=
  lookup_rate data "upload" "bytes_received" "uploadBytes".

Definition eight : float := PyFloat.of_small_Z 8.

(** [float(data[key]['bandwidth']) * 8]. *)
Definition nested_bandwidth (data : value) (key : string) : res value :=
  let* d := getitem data key in
  let* bw := getitem d "bandwidth" in
  let* f := to_float bw in
  Ok (Float (PyFloat.mul f eight)).

(** Lines 162 to 168: both assignments sit in one [try]; an exception
    keeps what was assigned before it. *)
Definition nested_structure (data dl ul : value) : value * value :=
  if is_none dl || is_none ul then
    match nested_bandwidth data "download" with
    | Raise _ => (dl, ul)
    | Ok dl' =>
        match nested_bandwidth data "upload" with
        | Raise _ => (dl', ul)
        | Ok ul' => (dl', ul')
        end
    end
  else (dl, ul).

(** Lines 158 to 169: from the parsed document to the result. *)
Definition normalize (data : value) (clock : Z) : res SpeedTestResult :=
  let* ping := lookup_ping data in
  let* dl := lookup_download data in
  let* ul := lookup_upload data in
  let '(dl, ul) := nested_structure data dl ul in
  let* d := to_float dl in
  let* u := to_float ul in
  let* p := to_float ping in
  Ok {| download_bps := d; upload_bps := u; ping_ms := p; timestamp := clock |}.

Definition speedtest_kwargs : kwargs :=
  {| shell := false; capture_output := true; text := true; timeout := 300 |}.

(** The body of the [try] inside the loop, for the [n]-th variant. *)
Definition attempt (h : host) (n : nat) (args : list string) : res SpeedTestResult :=
  let* proc := spawn h n (Argv args) speedtest_kwargs in
  let out := Text.strip (stdout proc) in
  let out := if String.eqb out "" then Text.strip (stderr proc) else out in
  let* data := json_loads h out in
  normalize data (now h).

Definition all_failed : exn := RuntimeError "Unable to run speedtest via module or CLI.".

Definition not_found : exn :=
  RuntimeError "speedtest module/CLI not found. Install with: pip install speedtest-cli or install Ookla Speedtest CLI.".

(** The [for] loop: the first variant that yields a result returns it. *)
Fixpoint try_variants (h : host) (n : nat) (variants : list (list string))
  : res SpeedTestResult :=
  match variants with
  | [] => Raise all_failed
  | args :: rest =>
      try_except (attempt h n args) (fun _ => try_variants h (S n) rest)
  end.

Definition variants (prog : string) : list (list string) :=
  [[prog; "--json"]; [prog; "--format=json"]; [prog; "--json"]].

(** Truth value of what [shutil.which] returns: a path or [None]. *)
Definition path_truthy (p : option string) : bool :=
  match p with
  | Some s => negb (String.eqb s "")
  | None => false
  end.

(** [shutil.which('speedtest-cli') or shutil.which('speedtest')]. *)
Definition find_prog (h : host) : option string :=
  if path_truthy (which h "speedtest-cli") then which h "speedtest-cli"
  else which h "speedtest".

Definition cli_path (h : host) : res SpeedTestResult :=
  let prog := find_prog h in
  if negb (path_truthy prog) then Raise not_found
  else
    match prog with
    | Some prog => try_variants h 0 (variants prog)
    | None => Raise not_found
    end.

Definition run_speedtest (h : host) (progress_callback : callback) : res SpeedTestResult :=
  try_except (module_path h progress_callback) (fun _ => cli_path h).

(** ** The window *)

Module Names.

(** Names bound by the module's top-level statements (lines 20 to 321);
    [speedtest] only when the import on line 31 succeeds. *)
Definition module_globals (speedtest_importable : bool) : gset string :=
  list_to_set
    (["__name__"; "__doc__"; "__package__"; "__loader__"; "__spec__"; "__file__";
      "__builtins__"; "__cached__";
      "sys"; "platform"; "subprocess"; "re"; "threading"; "time"; "datetime";
      "json"; "shutil"]
     ++ (if speedtest_importable then ["speedtest"] else [])
     ++ ["tk"; "ttk"; "messagebox"; "filedialog"; "APP_TITLE"; "LOG_FILE_DEFAULT";
         "run_cmd"; "parse_windows_netsh"; "get_windows_link_speed";
         "parse_linux_iwconfig"; "get_linux_link_speed"; "parse_macos_airport";
         "get_macos_link_speed"; "get_link_speed"; "run_speedtest"; "human_bps";
         "WifiSpeedApp"; "main"]).

(** The names of the [builtins] module. *)
Definition builtins : gset string :=
  list_to_set
    ["abs"; "all"; "any"; "ascii"; "bin"; "bool"; "breakpoint"; "bytearray";
     "bytes"; "callable"; "chr"; "classmethod"; "compile"; "complex"; "copyright";
     "credits"; "delattr"; "dict"; "dir"; "divmod"; "enumerate"; "eval"; "exec";
     "exit"; "filter"; "float"; "format"; "frozenset"; "getattr"; "globals";
     "hasattr"; "hash"; "help"; "hex"; "id"; "input"; "int"; "isinstance";
     "issubclass"; "iter"; "len"; "license"; "list"; "locals"; "map"; "max";
     "memoryview"; "min"; "next"; "object"; "oct"; "open"; "ord"; "pow"; "print";
     "property"; "quit"; "range"; "repr"; "reversed"; "round"; "set"; "setattr";
     "slice"; "sorted"; "staticmethod"; "str"; "sum"; "super"; "tuple"; "type";
     "vars"; "zip"; "__import__"; "__build_class__"; "__debug__";
     "None"; "True"; "False"; "Ellipsis"; "NotImplemented";
     "BaseException"; "Exception"; "ArithmeticError"; "AssertionError";
     "AttributeError"; "BlockingIOError"; "BrokenPipeError"; "BufferError";
     "BytesWarning"; "ChildProcessError"; "ConnectionAbortedError";
     "ConnectionError"; "ConnectionRefusedError"; "ConnectionResetError";
     "DeprecationWarning"; "EOFError"; "EnvironmentError"; "FileExistsError";
     "FileNotFoundError"; "FloatingPointError"; "FutureWarning"; "GeneratorExit";
     "IOError"; "ImportError"; "ImportWarning"; "IndentationError"; "IndexError";
     "InterruptedError"; "IsADirectoryError"; "KeyError"; "KeyboardInterrupt";
     "LookupError"; "MemoryError"; "ModuleNotFoundError"; "NameError";
     "NotADirectoryError"; "NotImplementedError"; "OSError"; "OverflowError";
     "PendingDeprecationWarning"; "PermissionError"; "ProcessLookupError";
     "RecursionError"; "ReferenceError"; "ResourceWarning"; "RuntimeError";
     "RuntimeWarning"; "StopAsyncIteration"; "StopIteration"; "SyntaxError";
     "SyntaxWarning"; "SystemError"; "SystemExit"; "TabError"; "TimeoutError";
     "TypeError"; "UnboundLocalError"; "UnicodeDecodeError"; "UnicodeEncodeError";
     "UnicodeError"; "UnicodeTranslateError"; "UnicodeWarning"; "UserWarning";
     "ValueError"; "Warning"; "WindowsError"; "ZeroDivisionError"].

(** What a name is bound to, as far as [is None] can tell: the module
    binds modules, functions, a class and two strings. *)
Inductive object : Type :=
  | NoneObject
  | OtherObject.

Definition is_none (o : object) : bool :=
  match o with NoneObject => true | OtherObject => false end.

(** A name a function body reads without assigning it: the module's
    globals, then the builtins, else [NameError]. *)
Definition load_global (speedtest_importable : bool) (name : string) : res object :=
  if bool_decide (name ∈ module_globals speedtest_importable) then Ok OtherObject
  else if bool_decide (name ∈ builtins) then
    Ok (if String.eqb name "None" then NoneObject else OtherObject)
  else Raise (NameError name).

End Names.

(** The widgets and variables of [WifiSpeedApp] the handlers write. *)
Record window : Type := Window
  { link_var : string;
    ping_var : string;
    dl_var : string;
    ul_var : string;
    status_var : string;
    log_text : string;
    refresh_btn : bool;
    test_btn : bool;
    dialogs : list (string * string) }.

Definition set_status (w : window) (msg : string) : window :=
  {| link_var := link_var w; ping_var := ping_var w; dl_var := dl_var w;
     ul_var := ul_var w; status_var := msg; log_text := log_text w;
     refresh_btn := refresh_btn w; test_btn := test_btn w; dialogs := dialogs w |}.

Definition set_rates (w : window) (ping dl ul : string) : window :=
  {| link_var := link_var w; ping_var := ping; dl_var := dl; ul_var := ul;
     status_var := status_var w; log_text := log_text w;
     refresh_btn := refresh_btn w; test_btn := test_btn w; dialogs := dialogs w |}.

Definition insert_log (w : window) (full : string) : window :=
  {| link_var := link_var w; ping_var := ping_var w; dl_var := dl_var w;
     ul_var := ul_var w; status_var := status_var w;
     log_text := (log_text w ++ full)%string;
     refresh_btn := refresh_btn w; test_btn := test_btn w; dialogs := dialogs w |}.

(** [messagebox.showerror(title, message)]. *)
Definition showerror (w : window) (title message : string) : window :=
  {| link_var := link_var w; ping_var := ping_var w; dl_var := dl_var w;
     ul_var := ul_var w; status_var := status_var w; log_text := log_text w;
     refresh_btn := refresh_btn w; test_btn := test_btn w;
     dialogs := dialogs w ++ [(title, message)] |}.

(** The [finally] clause: both buttons back to ['normal']. *)
Definition buttons_normal (w : window) : window :=
  {| link_var := link_var w; ping_var := ping_var w; dl_var := dl_var w;
     ul_var := ul_var w; status_var := status_var w; log_text := log_text w;
     refresh_btn := true; test_btn := true; dialogs := dialogs w |}.

Section Window.

(** Whether [import speedtest] on line 31 succeeded. *)
Variable speedtest_importable : bool.
(** [datetime.now().strftime('%Y-%m-%d %H:%M:%S')]. *)
Variable ts : string.
(** [str(e)]. *)
Variable describe : exn -> string.
(** [f'{x:.1f}'] and [human_bps(x)], whose float formatting is not modelled. *)
Variable format_1f : float -> string.
Variable human_bps : float -> string.
(** [run_speedtest(progress_callback=progress)] as it acts on the window
    through the callback it is given. *)
Variable measure :
  (string -> window -> window) -> window -> window * res SpeedTestResult.

(** The source's format string ends in a backslash and the letter n. *)
Definition log (w : window) (text : string) : window :=
  insert_log w ("[" ++ ts ++ "] " ++ text ++ "\n")%string.

Definition progress (msg : string) (w : window) : window := set_status w msg.

(** The [try] body of the handler. *)
Definition _run_speedtest_body (w : window) : window * res unit :=
  match Names.load_global speedtest_importable "Speedtest" with
  | Raise e => (w, Raise e)
  | Ok Speedtest =>
      if Names.is_none Speedtest then
        (w, Raise (RuntimeError "speedtest module not installed. Run: pip install speedtest-cli"))
      else
      let w := log w "Speedtest: selecting best server..." in
      let '(w, r) := measure progress w in
      match r with
      | Raise e => (w, Raise e)
      | Ok res =>
          let dl := download_bps res in
          let ul := upload_bps res in
          let ping := ping_ms res in
          let w := set_rates w ("Ping: " ++ format_1f ping ++ " ms")
                     ("Download: " ++ human_bps dl) ("Upload: " ++ human_bps ul) in
          let w := log w ("Speedtest result - Ping: " ++ format_1f ping
                          ++ " ms, Download: " ++ human_bps dl
                          ++ ", Upload: " ++ human_bps ul) in
          (set_status w "Speedtest completed", Ok tt)
      end
  end.

Definition _run_speedtest (w : window) : window :=
  let '(w, r) := _run_speedtest_body w in
  let w :=
    match r with
    | Ok _ => w
    | Raise e =>
        let w := set_status w "Error during speedtest" in
        let w := log w ("Speedtest error: " ++ describe e) in
        showerror w "Speedtest error" (describe e)
    end in
  buttons_normal w.

End Window.

(** ** Sample inputs *)

(** The spec's captured [iwconfig] and [airport] outputs. *)
Definition golden_iwconfig : string := "Bit Rate=54 Mb/s   Frequency:2.4 GHz".
Definition golden_airport : string := "lastTxRate: 866".

(** An operating system on which every command prints [out] and exits
    with [status]. *)
Definition prints (status : Z) (out : string) : runner :=
  fun _ _ => Ok {| returncode := status; stdout := out; stderr := "" |}.

(** 54.0, 866.0, 12.3, 8.0 and 0.0 as binary64 values. *)
Definition f54 : float := S754_finite false 7599824371187712 (-47).
Definition f866 : float := S754_finite false 7617416557232128 (-43).
Definition f12_3 : float := S754_finite false 6924284427082138 (-49).
Definition f8 : float := S754_finite false 4503599627370496 (-49).
Definition f0 : float := S754_zero false.
(** 54000000.0 and 12000000.0. *)
Definition f54e6 : float := S754_finite false 7247757312000000 (-27).
Definition f12e6 : float := S754_finite false 6442450944000000 (-29).

(** [{"ping": 12.3, "download": 54000000, "upload": 12000000}]. *)
Definition doc_top_level : gmap string value :=
  <["ping" := Float f12_3]>
    (<["download" := Int 54000000]> (<["upload" := Int 12000000]> ∅)).

(** [{"download": {"bandwidth": 6750000}, "upload": {"bandwidth": 1500000},
    "ping": 8.0}]. *)
Definition doc_nested : gmap string value :=
  <["download" := Obj {["bandwidth" := Int 6750000]}]>
    (<["upload" := Obj {["bandwidth" := Int 1500000]}]>
       (<["ping" := Float f8]> ∅)).

(** [{"download": 54000000, "upload": 12000000}]: no ping, server or
    latency. *)
Definition doc_no_ping : gmap string value :=
  <["download" := Int 54000000]> (<["upload" := Int 12000000]> ∅).

(** [{"ping": 12.3, "download": 0, "upload": 12000000}]. *)
Definition doc_zero_download : gmap string value :=
  <["ping" := Float f12_3]>
    (<["download" := Int 0]> (<["upload" := Int 12000000]> ∅)).

(** [{"ping": 12.3}]. *)
Definition doc_ping_only : gmap string value := {["ping" := Float f12_3]}.

(** [{"ping": 0, "download": 0, "upload": 0}]. *)
Definition doc_all_zero : gmap string value :=
  <["ping" := Int 0]> (<["download" := Int 0]> (<["upload" := Int 0]> ∅)).

(** A library that cannot be imported. *)
Definition no_library : library :=
  {| import_Speedtest := Raise ImportError; construct := Ok tt;
     get_best_server := Ok tt; download := Ok f0; upload := Ok f0;
     results_ping := Ok f0 |}.

(** A host with neither the library nor an executable. *)
Definition host_bare : host :=
  {| lib := no_library; which := fun _ => None;
     spawn := fun _ _ _ => Raise OSError;
     json_loads := fun _ => Raise JSONDecodeError; now := 0 |}.

(** A host whose executable prints something that is not JSON. *)
Definition host_broken_cli : host :=
  {| lib := no_library; which := fun _ => Some "/usr/bin/speedtest";
     spawn := fun _ => prints 2 "usage: speedtest [-h]";
     json_loads := fun _ => Raise JSONDecodeError; now := 0 |}.

(** A host whose executable prints the nested document. *)
Definition host_nested (clock : Z) : host :=
  {| lib := no_library; which := fun _ => Some "/usr/bin/speedtest";
     spawn := fun _ => prints 0 "{...}";
     json_loads := fun _ => Ok (Obj doc_nested); now := clock |}.

(** [x] when present, else [None]. *)
Definition or_default (o : option value) : value :=
  match o with Some v => v | None => Null end.

(** A number that is zero: [0], [0.0] or [-0.0]. *)
Definition zero_number (v : value) : bool :=
  match v with
  | Int n => n =? 0
  | Float f => PyFloat.is_zero f
  | _ => false
  end.

(** A number that is not zero. *)
Definition nonzero_number (v : value) : bool :=
  match v with
  | Int n => negb (n =? 0)
  | Float f => negb (PyFloat.is_zero f)
  | _ => false
  end.

(** What a parser may do: return, or raise [ValueError]. *)
Definition returns_or_value_error {A : Type} (r : res A) : Prop :=
  (exists v, r = Ok v) \/ r = Raise ValueError.

(** [sys.platform] values the dispatcher knows. *)
Definition recognized (p : string) : bool :=
  Text.startswith p "win" || Text.startswith p "linux" || Text.startswith p "darwin".

(** ** Formatting rates *)

Module Format.

(** The decimal digits of a natural number. *)
Definition decimal (n : Z) : string :=
  NilZero.string_of_uint (N.to_uint (Z.to_N n)).

(** [n] written with at least [width] digits. *)
Definition zero_padded (width : nat) (n : Z) : string :=
  let d := decimal n in
  (Text.text (repeat "0"%char (width - String.length d)) ++ d)%string.

(** The integer nearest to [num / den], ties to even; [0 < den]. *)
Definition round_half_even (num den : Z) : Z :=
  let q := num / den in
  let r := num mod den in
  if 2 * r <? den then q
  else if den <? 2 * r then q + 1
  else if Z.even q then q else q + 1.

(** The integer nearest to [m * 2 ^ e * 10 ^ digits]. *)
Definition scaled (digits : nat) (m : positive) (e : Z) : Z :=
  let k := 10 ^ Z.of_nat digits in
  if 0 <=? e then Zpos m * 2 ^ e * k
  else round_half_even (Zpos m * k) (2 ^ (- e)).

Definition sign (s : bool) : string := if s then "-" else "".

(** [f'{x:.Nf}'] for [N] at least 1: the exact binary value rounded to
    [N] decimals, ties to even. *)
Definition fixed (digits : nat) (x : float) : string :=
  match x with
  | S754_nan => "nan"
  | S754_infinity s => (sign s ++ "inf")%string
  | S754_zero s =>
      (sign s ++ "0." ++ zero_padded digits 0)%string
  | S754_finite s m e =>
      let n := scaled digits m e in
      let k := 10 ^ Z.of_nat digits in
      (sign s ++ decimal (n / k) ++ "." ++ zero_padded digits (n mod k))%string
  end.

End Format.

(** 1000.0. *)
Definition f1000 : float := PyFloat.of_small_Z 1000.

(** [val >= 1000]. *)
Definition at_least_1000 (val : float) : bool := SFleb f1000 val.

Definition units : list string := ["bps"; "Kbps"; "Mbps"; "Gbps"].

(** The [while] loop of [human_bps]; each round raises [i], so
    [length units] rounds of fuel are never used up. *)
Fixpoint scale_loop (fuel : nat) (val : float) (i : nat) : float * nat :=
  match fuel with
  | O => (val, i)
  | S fuel' =>
      if at_least_1000 val && (i <? length units - 1)%nat then
        scale_loop fuel' (SFdiv PyFloat.prec PyFloat.emax val f1000) (S i)
      else (val, i)
  end.

Definition human_bps (bps : value) : res string :=
  if Json.is_none bps then Ok "N/A"
  else
    let* val := to_float bps in
    let '(val, i) := scale_loop (length units) val 0 in
    Ok (Format.fixed 2 val ++ " " ++ nth i units "")%string.

(** ** Refreshing the link speed *)

Definition set_link (w : window) (text : string) : window :=
  {| link_var := text; ping_var := ping_var w; dl_var := dl_var w;
     ul_var := ul_var w; status_var := status_var w; log_text := log_text w;
     refresh_btn := refresh_btn w; test_btn := test_btn w; dialogs := dialogs w |}.

Definition set_refresh_btn (w : window) (enabled : bool) : window :=
  {| link_var := link_var w; ping_var := ping_var w; dl_var := dl_var w;
     ul_var := ul_var w; status_var := status_var w; log_text := log_text w;
     refresh_btn := enabled; test_btn := test_btn w; dialogs := dialogs w |}.

(** [clear_log]: the text widget is emptied. *)
Definition clear_log (w : window) : window :=
  {| link_var := link_var w; ping_var := ping_var w; dl_var := dl_var w;
     ul_var := ul_var w; status_var := status_var w; log_text := "";
     refresh_btn := refresh_btn w; test_btn := test_btn w; dialogs := dialogs w |}.

(** The body of [job] in [refresh_link_speed], which the worker thread
    runs; [p] is [sys.platform], [ts] the time of the log entry. *)
Definition refresh_job (run : runner) (p : string) (ts : string)
  (describe : exn -> string) (w : window) : window :=
  let w :=
    match get_link_speed run p with
    | Ok None =>
        let w := set_link w "Unknown or not connected" in
        log ts w "Link speed: unknown"
    | Ok (Some speed) =>
        let w := set_link w (Format.fixed 1 speed ++ " Mbps") in
        log ts w ("Link speed: " ++ Format.fixed 1 speed ++ " Mbps")
    | Raise e =>
        let w := set_link w "Error" in
        log ts w ("Error reading link speed: " ++ describe e)
    end in
  let w := set_status w "Ready" in
  set_refresh_btn w true.

(** [refresh_link_speed], with the worker run to its end. *)
Definition refresh_link_speed (run : runner) (p : string) (ts : string)
  (describe : exn -> string) (w : window) : window :=
  let w := set_refresh_btn w false in
  let w := set_status w "Refreshing link speed..." in
  refresh_job run p ts describe w.

(** ** What a pattern can capture *)

Module Capture.

(** Every character, by code point. *)
Definition all_ascii : list ascii := map ascii_of_nat (seq 0 256).

(** Every character a one-character node accepts satisfies [p]. *)
Definition atom_within (p accepts : ascii -> bool) : bool :=
  forallb (fun x => implb (accepts x) (p x)) all_ascii.

(** Every character [r] consumes satisfies [p]. *)
Fixpoint consumes_only (ignorecase : bool) (p : ascii -> bool) (r : Re.regex) : bool :=
  match r with
  | Re.Eps => true
  | Re.Chr c => atom_within p (Re.char_matches ignorecase c)
  | Re.Any => atom_within p (fun x => negb (Ascii.eqb x Re.newline))
  | Re.Class items =>
      atom_within p (fun x => existsb (fun i => Re.item_matches ignorecase i x) items)
  | Re.Seq r1 r2 | Re.Alt r1 r2 =>
      consumes_only ignorecase p r1 && consumes_only ignorecase p r2
  | Re.Star r1 | Re.Plus r1 | Re.Opt r1 | Re.Group _ r1 =>
      consumes_only ignorecase p r1
  end.

(** Every group numbered [n] in [r] consumes only characters that
    satisfy [p]. *)
Fixpoint group_within (ignorecase : bool) (n : nat) (p : ascii -> bool) (r : Re.regex)
  : bool :=
  match r with
  | Re.Group i r1 =>
      (if Nat.eqb i n then consumes_only ignorecase p r1 else true)
      && group_within ignorecase n p r1
  | Re.Seq r1 r2 | Re.Alt r1 r2 =>
      group_within ignorecase n p r1 && group_within ignorecase n p r2
  | Re.Star r1 | Re.Plus r1 | Re.Opt r1 => group_within ignorecase n p r1
  | _ => true
  end.

(** Every capture of group [n] holds only characters that satisfy [p]. *)
Definition caps_within (n : nat) (p : ascii -> bool) (caps : Re.captures) : bool :=
  forallb (fun c => implb (Nat.eqb (fst c) n) (forallb p (snd c))) caps.

(** What the matcher owes its continuation, with the text it consumed:
    the result comes from a call of [k] on the rest of [s]; the consumed
    prefix satisfies [p] if [cons] holds, and the captures stay within [p]
    if [grp] holds. *)
Definition tracks (n : nat) (p : ascii -> bool) (cons grp : bool)
  (s : list ascii) (caps : Re.captures) (k : Re.cont) (out : Re.captures) : Prop :=
  exists pre s1 c1,
    s = pre ++ s1
    /\ k s1 c1 = Some out
    /\ (cons = true -> forallb p pre = true)
    /\ (grp = true -> caps_within n p caps = true -> caps_within n p c1 = true).

(** Whether [pattern] compiles to an expression whose group [n] consumes
    only characters that satisfy [p]. *)
Definition pattern_within (f : Re.flag) (n : nat) (p : ascii -> bool) (pattern : string)
  : bool :=
  match Re.compile pattern with
  | Some r => group_within (Re.ignores_case f) n p r
  | None => true
  end.

(** The characters the program's groups can hold: the backslash, the dot,
    and the letters of [d] and [Mbps] in either case. *)
Definition token_char (c : ascii) : bool := Re.one_of "\.dDmMbBpPsS" c.

End Capture.

(** ** More sample inputs *)

(** [v] is a [dict]. *)
Definition is_obj (v : value) : bool :=
  match v with Obj _ => true | _ => false end.

(** [{"bytes_sent": 1000, "upload": 12000000, "ping": 12.3}]. *)
Definition doc_bytes_sent : gmap string value :=
  <["bytes_sent" := Int 1000]>
    (<["upload" := Int 12000000]> (<["ping" := Float f12_3]> ∅)).

(** [{"server": {"ping": 8.0}, "download": 54000000, "upload": 12000000}]. *)
Definition doc_server_ping : gmap string value :=
  <["server" := Obj {["ping" := Float f8]}]> doc_no_ping.

(** [{"server": "fra01", "download": 54000000, "upload": 12000000}]. *)
Definition doc_server_text : gmap string value :=
  <["server" := Str "fra01"]> doc_no_ping.

(** 1000.0 as the float of the int 1000. *)
Definition f1e3 : float := S754_finite false 8796093022208000 (-43).

(** A library that works. *)
Definition good_library : library :=
  {| import_Speedtest := Ok tt; construct := Ok tt; get_best_server := Ok tt;
     download := Ok f54e6; upload := Ok f12e6; results_ping := Ok f8 |}.

(** A host with a working library and nothing else. *)
Definition host_library : host :=
  {| lib := good_library; which := fun _ => None;
     spawn := fun _ _ _ => Raise OSError;
     json_loads := fun _ => Raise JSONDecodeError; now := 0 |}.

(** A host with a working library and a working executable. *)
Definition host_both : host :=
  {| lib := good_library; which := fun _ => Some "/usr/bin/speedtest";
     spawn := fun _ => prints 0 "{...}";
     json_loads := fun _ => Ok (Obj doc_bytes_sent); now := 0 |}.

(** [{"download": "54000000", "upload": true, "ping": "12.3"}]: numbers
    given as strings and a boolean. *)
Definition doc_texts : gmap string value :=
  <["download" := Str "54000000"]>
    (<["upload" := Bool true]> (<["ping" := Str "12.3"]> ∅)).

(** 1.0. *)
Definition f1 : float := S754_finite false 4503599627370496 (-52).

(** A progress callback that fails on every message. *)
Definition failing_callback : callback := Some (fun _ => Raise TypeError).

(** A host whose executable prints only a blank line on standard output
    and its document on standard error. *)
Definition host_stderr : host :=
  {| lib := no_library; which := fun _ => Some "/usr/bin/speedtest";
     spawn := fun _ _ _ =>
                Ok {| returncode := 0; stdout := " "; stderr := "{...}" |};
     json_loads := fun _ => Ok (Obj doc_top_level); now := 0 |}.

(** One log entry as [log] writes it. *)
Definition entry_text (e : string * string) : string :=
  ("[" ++ fst e ++ "] " ++ snd e ++ "\n")%string.

(** A run of [log] calls, each with its time and text. *)
Definition log_all (entries : list (string * string)) (w : window) : window :=
  fold_left (fun w e => log (fst e) w (snd e)) entries w.

(** The texts of [l] one after the other. *)
Definition joined (l : list string) : string := fold_right String.append "" l.

(** No line feed in [s]. *)
Definition no_line_feed (s : string) : bool :=
  forallb (fun c => negb (Ascii.eqb c Re.newline)) (Text.chars s).

(** ** The literals denote the intended numbers *)

Lemma float_literals :
  PyFloat.of_str "54" = Ok f54 /\ PyFloat.of_str "866" = Ok f866
  /\ PyFloat.of_str "12.3" = Ok f12_3 /\ PyFloat.of_str "8.0" = Ok f8
  /\ PyFloat.of_str "0.0" = Ok f0
  /\ PyFloat.of_Z 54000000 = Ok f54e6 /\ PyFloat.of_Z 12000000 = Ok f12e6
  /\ PyFloat.of_Z 0 = Ok f0.
Proof. repeat split; vm_compute; reflexivity. Qed.

(** ** Link speed: the golden scenarios *)

(** Every pattern of the program is within the syntax [Re.compile] reads. *)
Lemma patterns_compile :
  Forall (fun pat => is_Some (Re.compile pat))
    ["Receive rate \\(Mbps\\)\\s*:\\s*([\\d\\.]+)";
     "Transmit rate \\(Mbps\\)\\s*:\\s*([\\d\\.]+)";
     "([\\d\\.]+)\\s*Mbps";
     "Bit Rate[:=]\\s*([\\d\\.]+)\\s*Mb";
     "(tx|rx) bitrate[:=]?\\s*([\\d\\.]+)\\s*M";
     "([\\d\\.]+)M";
     "lastTxRate:\\s*([\\d\\.]+)";
     "([\\d\\.]+)\\s*Mb/s"].
Proof. repeat constructor; vm_compute; eauto. Qed.

(** In each pattern the backslashes are doubled inside a raw string, so
    [\\s*] asks for a backslash and then any number of the letter s, and
    [[\\d\\.]] is the set of backslash, the letter d and the dot. *)
Lemma bit_rate_pattern_as_written :
  Re.compile "[:=]\\s*([\\d\\.]+)"
  = Some (Re.Seq (Re.Class [Re.IChar ":"; Re.IChar "="])
            (Re.Seq (Re.Chr "\")
               (Re.Seq (Re.Star (Re.Chr "s"))
                  (Re.Group 1
                     (Re.Plus (Re.Class [Re.IChar "\"; Re.IChar "d";
                                         Re.IChar "\"; Re.IChar "."])))))).
Proof. vm_compute; reflexivity. Qed.

(** With single backslashes the same two patterns read the golden texts:
    the captured tokens are 54 and 866. *)
Lemma single_backslash_patterns_read_golden :
  (let* m := match Re.search "Bit Rate[:=]\s*([\d\.]+)\s*Mb" golden_iwconfig Re.IGNORECASE with
             | Some m => Ok m
             | None => Raise KeyError
             end in
   float_group m 1) = Ok f54
  /\ (let* m := match Re.search "lastTxRate:\s*([\d\.]+)" golden_airport Re.NOFLAG with
                | Some m => Ok m
                | None => Raise KeyError
                end in
      float_group m 1) = Ok f866.
Proof. split; vm_compute; reflexivity. Qed.

(** Even with single backslashes the set [[\d\.]] lets through tokens
    that [float()] rejects. *)
Lemma single_backslash_patterns_still_raise :
  (let* m := match Re.search "lastTxRate:\s*([\d\.]+)" "lastTxRate: 1.2.3" Re.NOFLAG with
             | Some m => Ok m
             | None => Raise KeyError
             end in
   float_group m 1) = Raise ValueError.
Proof. vm_compute; reflexivity. Qed.

(** C1. On the captured output [Bit Rate=54 Mb/s   Frequency:2.4 GHz]
    [parse_linux_iwconfig] returns [None], not 54.0, and the Linux probe on
    a machine whose commands all print this text returns [None] as well:
    the patterns as written need a backslash after the [=]. *)
Theorem parse_linux_iwconfig_golden :
  parse_linux_iwconfig golden_iwconfig = Ok None
  /\ get_linux_link_speed (prints 0 golden_iwconfig) = Ok None
  /\ get_link_speed (prints 0 golden_iwconfig) "linux" = Ok None.
Proof. repeat split; vm_compute; reflexivity. Qed.

(** C7. On the captured output [lastTxRate: 866] [parse_macos_airport]
    returns [None], not 866.0, and so does the macOS probe. *)
Theorem parse_macos_airport_golden :
  parse_macos_airport golden_airport = Ok None
  /\ get_link_speed (prints 0 golden_airport) "darwin" = Ok None.
Proof. repeat split; vm_compute; reflexivity. Qed.

(** ** [run_cmd] *)

(** C9, as the claim states it, fails: a command that exits with status 1
    after printing [usage] gives [run_cmd] that text, not the empty
    string. *)
Lemma run_cmd_nonzero_exit_keeps_output :
  returncode {| returncode := 1; stdout := "usage"; stderr := "" |} <> 0
  /\ run_cmd (prints 1 "usage") "iwconfig 2>/dev/null" = Ok "usage"
  /\ run_cmd (prints 1 "usage") "iwconfig 2>/dev/null" <> Ok "".
Proof. repeat split; [discriminate | vm_compute; discriminate]. Qed.

(** C9, amended. [run_cmd] makes one [subprocess.run] call through the
    shell with a timeout of 6 seconds and never raises: when the call
    raises (a timeout, a failure to launch) the result is the empty string;
    when it completes the result is the standard output followed by the
    standard error, whatever the exit status. *)
Theorem run_cmd_total (run : runner) (cmd : string) :
  timeout run_cmd_kwargs = 6
  /\ run_cmd run cmd
     = match run (Shell cmd) {| shell := true; capture_output := true;
                                text := true; timeout := 6 |} with
       | Ok proc => Ok (stdout proc ++ stderr proc)%string
       | Raise _ => Ok ""
       end.
Proof.
  split; [reflexivity |].
  unfold run_cmd, run_cmd_kwargs, try_except, bind.
  destruct (run _ _); reflexivity.
Qed.

(** ** The handler of the Run Speedtest button *)

Lemma Speedtest_unbound (speedtest_importable : bool) :
  Names.load_global speedtest_importable "Speedtest" = Raise (NameError "Speedtest").
Proof. destruct speedtest_importable; vm_compute; reflexivity. Qed.

(** C4. Whether or not [import speedtest] succeeded, and whatever
    [run_speedtest] would do, the handler raises [NameError] at its guard:
    the window ends with the status [Error during speedtest], one more log
    line and one more error dialog, both buttons enabled, and nothing else
    changed; [run_speedtest] has no part in the outcome. *)
Theorem _run_speedtest_always_errors
  (speedtest_importable : bool) (ts : string) (describe : exn -> string)
  (format_1f human_bps : float -> string)
  (measure : (string -> window -> window) -> window -> window * res SpeedTestResult)
  (w : window) :
  _run_speedtest_body speedtest_importable ts format_1f human_bps measure w
  = (w, Raise (NameError "Speedtest"))
  /\ _run_speedtest speedtest_importable ts describe format_1f human_bps measure w
     = {| link_var := link_var w; ping_var := ping_var w; dl_var := dl_var w;
          ul_var := ul_var w;
          status_var := "Error during speedtest";
          log_text := (log_text w ++ "[" ++ ts ++ "] " ++ "Speedtest error: "
                       ++ describe (NameError "Speedtest") ++ "\n")%string;
          refresh_btn := true; test_btn := true;
          dialogs := dialogs w ++ [("Speedtest error", describe (NameError "Speedtest"))] |}.
Proof.
  unfold _run_speedtest, _run_speedtest_body.
  rewrite Speedtest_unbound. split; [reflexivity |].
  unfold buttons_normal, showerror, log, insert_log, set_status; simpl.
  reflexivity.
Qed.

(** ** The normaliser *)

Lemma truthy_obj (m : gmap string value) (k : string) (v : value) :
  m !! k = Some v -> truthy (Obj m) = true.
Proof.
  intros Hk. simpl.
  destruct (Nat.eqb_spec (size m) 0) as [Hz | Hnz]; [| reflexivity].
  apply map_size_empty_iff in Hz. subst m.
  rewrite lookup_empty in Hk. discriminate.
Qed.

(** Nothing false can be subscripted with a string key. *)
Lemma falsy_getitem (v : value) (k : string) :
  truthy v = false -> exists e, getitem v k = Raise e.
Proof.
  destruct v as [| b | n | f | s | l | m]; simpl; intros Hv; eauto.
  destruct (m !! k) as [x |] eqn:Hk; [| eauto].
  apply truthy_obj in Hk. simpl in Hk. congruence.
Qed.

Lemma lookup_rate_obj (m : gmap string value) (k1 k2 k3 : string) :
  lookup_rate (Obj m) k1 k2 k3
  = Ok (if truthy (or_default (m !! k1)) then or_default (m !! k1)
        else if truthy (or_default (m !! k2)) then or_default (m !! k2)
        else or_default (m !! k3)).
Proof.
  unfold lookup_rate, or_else, get, bind, or_default.
  destruct (m !! k1) as [a |]; simpl;
    [destruct (truthy a); [reflexivity |] |];
    (destruct (m !! k2) as [b |]; simpl;
       [destruct (truthy b); reflexivity | reflexivity]).
Qed.

(** When the top-level lookups end at [None], the key itself is missing or
    holds something false, so the nested lookup raises. *)
Lemma nested_bandwidth_after_none (data : value) (k1 k2 k3 : string) :
  lookup_rate data k1 k2 k3 = Ok Null ->
  exists e, nested_bandwidth data k1 = Raise e.
Proof.
  destruct data as [| b | n | f | s | l | m]; try discriminate.
  rewrite lookup_rate_obj. unfold nested_bandwidth, getitem at 1, bind.
  destruct (m !! k1) as [a |] eqn:Hk1; simpl; [| eauto].
  destruct (truthy a) eqn:Ha.
  - intros [= ->]. discriminate.
  - intros _. destruct (falsy_getitem a "bandwidth" Ha) as [e ->]. eauto.
Qed.

(** The nested structure never supplies a rate the top level lacked. *)
Lemma nested_structure_keeps_none (data dl ul : value) :
  lookup_download data = Ok dl ->
  lookup_upload data = Ok ul ->
  is_none dl || is_none ul = true ->
  is_none (fst (nested_structure data dl ul))
  || is_none (snd (nested_structure data dl ul)) = true.
Proof.
  intros Hdl Hul Hnone. unfold nested_structure. rewrite Hnone.
  destruct (is_none dl) eqn:Hd.
  - destruct dl; try discriminate.
    destruct (nested_bandwidth_after_none _ _ _ _ Hdl) as [e ->]. reflexivity.
  - simpl in Hnone. destruct ul; try discriminate.
    destruct (nested_bandwidth_after_none _ _ _ _ Hul) as [e ->].
    destruct (nested_bandwidth data "download"); simpl;
      [apply orb_true_r | rewrite Hd; reflexivity].
Qed.

Lemma to_float_none (v : value) : is_none v = true -> to_float v = Raise TypeError.
Proof. destruct v; try discriminate; reflexivity. Qed.

(** A rate still absent after the top-level lookups fails the attempt. *)
Lemma normalize_absent_rate (data dl ul : value) (clock : Z) :
  lookup_download data = Ok dl ->
  lookup_upload data = Ok ul ->
  is_none dl || is_none ul = true ->
  is_ok (normalize data clock) = false.
Proof.
  intros Hdl Hul Hnone. unfold normalize.
  destruct (lookup_ping data) as [ping | e]; [| reflexivity].
  rewrite Hdl, Hul. cbn [bind].
  pose proof (nested_structure_keeps_none data dl ul Hdl Hul Hnone) as Hk.
  destruct (nested_structure data dl ul) as [dl' ul']. simpl in Hk.
  destruct (is_none dl') eqn:Hd.
  - rewrite (to_float_none _ Hd). reflexivity.
  - simpl in Hk. rewrite (to_float_none _ Hk).
    destruct (to_float dl'); reflexivity.
Qed.

Lemma lookup_ping_truthy (m : gmap string value) (p : value) :
  m !! "ping" = Some p -> truthy p = true -> lookup_ping (Obj m) = Ok p.
Proof.
  intros Hp Ht. unfold lookup_ping, get, bind, or_else. rewrite Hp, Ht. reflexivity.
Qed.

Lemma lookup_rate_truthy (m : gmap string value) (k1 k2 k3 : string) (v : value) :
  m !! k1 = Some v -> truthy v = true -> lookup_rate (Obj m) k1 k2 k3 = Ok v.
Proof.
  intros Hk Ht. rewrite lookup_rate_obj, Hk. simpl. rewrite Ht. reflexivity.
Qed.

Lemma nonzero_number_truthy (v : value) : nonzero_number v = true -> truthy v = true.
Proof. destruct v; simpl; congruence. Qed.

Lemma zero_number_falsy (v : value) : zero_number v = true -> truthy v = false.
Proof. destruct v; simpl; try discriminate; intros ->; reflexivity. Qed.

Create HintDb truth discriminated.
#[local] Hint Resolve truthy_obj nonzero_number_truthy zero_number_falsy : truth.

(** Top-level rates that are true values skip the nested structure. *)
Lemma normalize_top_level (m : gmap string value) (d u p : value) (clock : Z) :
  m !! "download" = Some d -> m !! "upload" = Some u -> m !! "ping" = Some p ->
  truthy d = true -> truthy u = true -> truthy p = true ->
  normalize (Obj m) clock
  = (let* fd := to_float d in
     let* fu := to_float u in
     let* fp := to_float p in
     Ok {| download_bps := fd; upload_bps := fu; ping_ms := fp; timestamp := clock |}).
Proof.
  intros Hd Hu Hp Td Tu Tp. unfold normalize, lookup_download, lookup_upload.
  rewrite (lookup_ping_truthy m p Hp Tp).
  rewrite (lookup_rate_truthy m _ _ _ d Hd Td), (lookup_rate_truthy m _ _ _ u Hu Tu).
  cbn [bind]. unfold nested_structure.
  assert (is_none d = false) as -> by (destruct d; simpl in *; congruence).
  assert (is_none u = false) as -> by (destruct u; simpl in *; congruence).
  reflexivity.
Qed.

(** C2. On the document with only nested [bandwidth] fields the
    normaliser raises [TypeError] instead of returning [bandwidth * 8]:
    the nested objects are true values, so lines 159 and 160 keep them,
    the test on line 162 is false, and [float()] is applied to a dict.
    With the command-line tool printing this document each time,
    [run_speedtest] ends in its final [RuntimeError]. *)
Theorem normalize_nested_document (clock : Z) (cb : callback) :
  normalize (Obj doc_nested) clock = Raise TypeError
  /\ nested_bandwidth (Obj doc_nested) "download" = Ok (Float f54e6)
  /\ nested_bandwidth (Obj doc_nested) "upload" = Ok (Float f12e6)
  /\ run_speedtest (host_nested clock) cb = Raise all_failed.
Proof. repeat split; vm_compute; reflexivity. Qed.

(** Any document whose [download] and [upload] are objects with a
    [bandwidth] member fails in the same way. *)
Lemma normalize_nested_fails (m bd bu : gmap string value) (x y p : value) (clock : Z) :
  m !! "download" = Some (Obj bd) -> bd !! "bandwidth" = Some x ->
  m !! "upload" = Some (Obj bu) -> bu !! "bandwidth" = Some y ->
  m !! "ping" = Some p -> truthy p = true ->
  normalize (Obj m) clock = Raise TypeError.
Proof.
  intros Hd Hx Hu Hy Hp Tp.
  rewrite (normalize_top_level m _ _ p clock Hd Hu Hp); eauto with truth.
Qed.

(** C3, as the claim states it, fails for ping: a document with
    [download] and [upload] but no [ping], [server] or [latency] is given
    [ping_ms] 0.0. *)
Lemma normalize_fabricates_ping :
  doc_no_ping !! "ping" = None
  /\ normalize (Obj doc_no_ping) 0
     = Ok {| download_bps := f54e6; upload_bps := f12e6; ping_ms := f0;
             timestamp := 0 |}.
Proof. split; vm_compute; reflexivity. Qed.

(** C3, amended. A document for which the download lookups or the upload
    lookups of lines 159 and 160 end at [None] fails the attempt: no result
    is built, and the nested structure cannot make up for it.  A document
    without [ping], [server] and [latency] is not failed for that: its
    ping is the default 0.0. *)
Theorem normalize_missing_field (data : value) (m : gmap string value) (clock : Z) :
  (lookup_download data = Ok Null \/ lookup_upload data = Ok Null ->
   is_ok (normalize data clock) = false)
  /\ (m !! "ping" = None -> m !! "server" = None -> m !! "latency" = None ->
      lookup_ping (Obj m) = Ok (Float f0)
      /\ forall r, normalize (Obj m) clock = Ok r -> ping_ms r = f0).
Proof.
  split.
  - intros [Hdl | Hul].
    + destruct (lookup_upload data) as [ul | e] eqn:Hul.
      * eapply normalize_absent_rate; [exact Hdl | exact Hul | reflexivity].
      * unfold normalize. destruct (lookup_ping data); [| reflexivity].
        rewrite Hdl, Hul. reflexivity.
    + destruct (lookup_download data) as [dl | e] eqn:Hdl.
      * eapply normalize_absent_rate; [exact Hdl | exact Hul | apply orb_true_r].
      * unfold normalize. destruct (lookup_ping data); [| reflexivity].
        rewrite Hdl. reflexivity.
  - intros Hp Hs Hl.
    assert (lookup_ping (Obj m) = Ok (Float f0)) as Hping.
    { unfold lookup_ping, get, bind, or_else. rewrite Hp, Hs, Hl. simpl.
      rewrite lookup_empty. reflexivity. }
    split; [exact Hping |].
    intros r. unfold normalize. rewrite Hping. cbn [bind].
    destruct (lookup_download (Obj m)) as [dl |]; [| discriminate].
    destruct (lookup_upload (Obj m)) as [ul |]; [| discriminate]. cbn [bind].
    destruct (nested_structure (Obj m) dl ul) as [dl' ul'].
    destruct (to_float dl'); [| discriminate].
    destruct (to_float ul'); [| discriminate].
    simpl. intros [= <-]. reflexivity.
Qed.

(** A document with a ping only, and one with rates only. *)
Lemma normalize_missing_field_witness :
  (lookup_download (Obj doc_ping_only) = Ok Null
   \/ lookup_upload (Obj doc_ping_only) = Ok Null)
  /\ is_ok (normalize (Obj doc_ping_only) 0) = false
  /\ doc_no_ping !! "ping" = None /\ doc_no_ping !! "server" = None
  /\ doc_no_ping !! "latency" = None
  /\ lookup_ping (Obj doc_no_ping) = Ok (Float f0).
Proof.
  assert (lookup_download (Obj doc_ping_only) = Ok Null
          \/ lookup_upload (Obj doc_ping_only) = Ok Null) as H
    by (left; reflexivity).
  split; [exact H |].
  split; [exact (proj1 (normalize_missing_field (Obj doc_ping_only) ∅ 0) H) |].
  assert (doc_no_ping !! "ping" = None) as Hp by reflexivity.
  assert (doc_no_ping !! "server" = None) as Hs by reflexivity.
  assert (doc_no_ping !! "latency" = None) as Hl by reflexivity.
  repeat (split; [assumption |]).
  exact (proj1 (proj2 (normalize_missing_field Null doc_no_ping 0) Hp Hs Hl)).
Defined.

(** C6, as the claim states it, fails when a field is zero: with
    [download] 0 the document has numeric top-level fields, yet the
    attempt fails instead of returning 0.0. *)
Lemma normalize_zero_download_fails :
  doc_zero_download !! "download" = Some (Int 0)
  /\ normalize (Obj doc_zero_download) 0 = Raise TypeError.
Proof. split; vm_compute; reflexivity. Qed.

(** C6, amended. When the top-level [download], [upload] and [ping] are
    numbers other than zero, the result holds exactly their conversions
    to float, whenever the three convert (an int beyond the float range
    does not). *)
Theorem normalize_top_level_numbers
  (m : gmap string value) (d u p : value) (fd fu fp : float) (clock : Z) :
  m !! "download" = Some d -> m !! "upload" = Some u -> m !! "ping" = Some p ->
  nonzero_number d = true -> nonzero_number u = true -> nonzero_number p = true ->
  to_float d = Ok fd -> to_float u = Ok fu -> to_float p = Ok fp ->
  normalize (Obj m) clock
  = Ok {| download_bps := fd; upload_bps := fu; ping_ms := fp; timestamp := clock |}.
Proof.
  intros Hd Hu Hp Nd Nu Np Fd Fu Fp.
  rewrite (normalize_top_level m d u p clock Hd Hu Hp); auto with truth.
  rewrite Fd, Fu, Fp. reflexivity.
Qed.

(** The spec's scenario: 12.3, 54000000.0 and 12000000.0. *)
Lemma normalize_top_level_numbers_witness :
  (doc_top_level !! "download" = Some (Int 54000000)
   /\ doc_top_level !! "upload" = Some (Int 12000000)
   /\ doc_top_level !! "ping" = Some (Float f12_3)
   /\ nonzero_number (Int 54000000) = true /\ nonzero_number (Int 12000000) = true
   /\ nonzero_number (Float f12_3) = true
   /\ to_float (Int 54000000) = Ok f54e6 /\ to_float (Int 12000000) = Ok f12e6
   /\ to_float (Float f12_3) = Ok f12_3)
  /\ normalize (Obj doc_top_level) 0
     = Ok {| download_bps := f54e6; upload_bps := f12e6; ping_ms := f12_3;
             timestamp := 0 |}.
Proof.
  split; [repeat split; reflexivity |].
  apply (normalize_top_level_numbers doc_top_level
           (Int 54000000) (Int 12000000) (Float f12_3)); reflexivity.
Defined.

(** ** Zero is taken for absent *)

(** Removing a false [ping] changes nothing. *)
Lemma normalize_delete_falsy_ping (m : gmap string value) (v : value) (clock : Z) :
  m !! "ping" = Some v -> truthy v = false ->
  normalize (Obj m) clock = normalize (Obj (delete "ping" m)) clock.
Proof.
  intros Hk Hv.
  assert (lookup_ping (Obj (delete "ping" m)) = lookup_ping (Obj m)) as Hping.
  { unfold lookup_ping, get, bind, or_else.
    rewrite lookup_delete_eq, Hk, Hv.
    rewrite !lookup_delete_ne by discriminate. reflexivity. }
  assert (forall k1 k2 k3, k1 <> "ping" -> k2 <> "ping" -> k3 <> "ping" ->
          lookup_rate (Obj (delete "ping" m)) k1 k2 k3 = lookup_rate (Obj m) k1 k2 k3)
    as Hrate.
  { intros k1 k2 k3 H1 H2 H3. rewrite !lookup_rate_obj.
    rewrite !lookup_delete_ne by congruence. reflexivity. }
  assert (forall k, k <> "ping" ->
          nested_bandwidth (Obj (delete "ping" m)) k = nested_bandwidth (Obj m) k)
    as Hnest.
  { intros k Hne. unfold nested_bandwidth, getitem at 1 3.
    rewrite lookup_delete_ne by congruence. reflexivity. }
  unfold normalize, lookup_download, lookup_upload, nested_structure.
  rewrite Hping, !Hrate, !Hnest by discriminate. reflexivity.
Qed.

(** Removing a false rate field changes nothing either: the nested lookup
    raises with the field ([TypeError] or [KeyError] on the false value)
    and without it ([KeyError]). *)
Lemma normalize_delete_falsy_rate (m : gmap string value) (k : string) (v : value)
  (clock : Z) :
  k = "download" \/ k = "upload" ->
  m !! k = Some v -> truthy v = false ->
  normalize (Obj m) clock = normalize (Obj (delete k m)) clock.
Proof.
  intros Hkey Hk Hv.
  assert (lookup_ping (Obj (delete k m)) = lookup_ping (Obj m)) as Hping.
  { unfold lookup_ping, get, bind, or_else.
    rewrite !lookup_delete_ne by (destruct Hkey; subst k; discriminate). reflexivity. }
  assert (forall k2 k3, k2 <> k -> k3 <> k ->
          lookup_rate (Obj (delete k m)) k k2 k3 = lookup_rate (Obj m) k k2 k3) as Hsame.
  { intros k2 k3 H2 H3. rewrite !lookup_rate_obj.
    rewrite lookup_delete_eq, Hk. simpl. rewrite Hv.
    rewrite !lookup_delete_ne by congruence. reflexivity. }
  assert (forall k1 k2 k3, k1 <> k -> k2 <> k -> k3 <> k ->
          lookup_rate (Obj (delete k m)) k1 k2 k3 = lookup_rate (Obj m) k1 k2 k3) as Hother.
  { intros k1 k2 k3 H1 H2 H3. rewrite !lookup_rate_obj.
    rewrite !lookup_delete_ne by congruence. reflexivity. }
  assert (forall k', k' <> k ->
          nested_bandwidth (Obj (delete k m)) k' = nested_bandwidth (Obj m) k') as Hnest.
  { intros k' Hne. unfold nested_bandwidth, getitem at 1 3.
    rewrite lookup_delete_ne by congruence. reflexivity. }
  assert (exists e, nested_bandwidth (Obj m) k = Raise e) as [e1 He1].
  { unfold nested_bandwidth, getitem at 1, bind. rewrite Hk.
    destruct (falsy_getitem v "bandwidth" Hv) as [e ->]. eauto. }
  assert (exists e, nested_bandwidth (Obj (delete k m)) k = Raise e) as [e2 He2].
  { unfold nested_bandwidth, getitem at 1, bind. rewrite lookup_delete_eq. eauto. }
  unfold normalize, lookup_download, lookup_upload, nested_structure.
  rewrite Hping.
  destruct Hkey; subst k.
  - rewrite Hsame, Hother by discriminate. rewrite He1, He2. reflexivity.
  - rewrite Hsame, Hother by discriminate. rewrite He1, He2.
    rewrite Hnest by discriminate. reflexivity.
Qed.



(** ** [run_speedtest]: the errors that surface *)

Lemma try_variants_all_fail (h : host) (prog : string) :
  is_ok (attempt h 0 [prog; "--json"]) = false ->
  is_ok (attempt h 1 [prog; "--format=json"]) = false ->
  is_ok (attempt h 2 [prog; "--json"]) = false ->
  try_variants h 0 (variants prog) = Raise all_failed.
Proof.
  intros H0 H1 H2. unfold variants. simpl. unfold try_except.
  destruct (attempt h 0 _); [discriminate |].
  destruct (attempt h 1 _); [discriminate |].
  destruct (attempt h 2 _); [discriminate |].
  reflexivity.
Qed.

(** C8. When the library path raises: with neither [speedtest-cli] nor
    [speedtest] on the path, [run_speedtest] raises the [RuntimeError]
    that says the module and the command-line tool were not found; with
    an executable found and all three invocations failing, it raises the
    [RuntimeError] that says the test could not be run by module or
    command line.  In both cases that error, and not the exception that
    made the library path or an invocation fail, is what the caller
    gets. *)
Theorem run_speedtest_errors (h : host) (cb : callback) (e : exn) :
  module_path h cb = Raise e ->
  (which h "speedtest-cli" = None -> which h "speedtest" = None ->
   run_speedtest h cb
   = Raise (RuntimeError "speedtest module/CLI not found. Install with: pip install speedtest-cli or install Ookla Speedtest CLI."))
  /\ (forall prog : string,
        find_prog h = Some prog -> prog <> "" ->
        is_ok (attempt h 0 [prog; "--json"]) = false ->
        is_ok (attempt h 1 [prog; "--format=json"]) = false ->
        is_ok (attempt h 2 [prog; "--json"]) = false ->
        run_speedtest h cb
        = Raise (RuntimeError "Unable to run speedtest via module or CLI.")).
Proof.
  intros Hlib. unfold run_speedtest, try_except. rewrite Hlib. split.
  - intros Ha Hb. unfold cli_path, find_prog. rewrite Ha, Hb. reflexivity.
  - intros prog Hfind Hne H0 H1 H2. unfold cli_path. rewrite Hfind. simpl.
    destruct (String.eqb_spec prog "") as [-> | _]; [contradiction |]. simpl.
    apply try_variants_all_fail; assumption.
Qed.

Lemma run_speedtest_errors_witness :
  (module_path host_bare None = Raise ImportError
   /\ which host_bare "speedtest-cli" = None /\ which host_bare "speedtest" = None
   /\ run_speedtest host_bare None = Raise not_found)
  /\ (module_path host_broken_cli None = Raise ImportError
      /\ find_prog host_broken_cli = Some "/usr/bin/speedtest"
      /\ is_ok (attempt host_broken_cli 0 ["/usr/bin/speedtest"; "--json"]) = false
      /\ is_ok (attempt host_broken_cli 1 ["/usr/bin/speedtest"; "--format=json"]) = false
      /\ is_ok (attempt host_broken_cli 2 ["/usr/bin/speedtest"; "--json"]) = false
      /\ run_speedtest host_broken_cli None = Raise all_failed).
Proof.
  split.
  - repeat (split; [reflexivity |]).
    apply (proj1 (run_speedtest_errors host_bare None ImportError eq_refl));
      reflexivity.
  - repeat (split; [reflexivity |]).
    apply (proj2 (run_speedtest_errors host_broken_cli None ImportError eq_refl)
             "/usr/bin/speedtest"); [reflexivity | discriminate | reflexivity ..].
Defined.

(** ** A match always carries the group the parsers read *)

Section Groups.

Variable n : nat.
Variable ignorecase : bool.

Lemma reaches_weaken (sets : bool) caps k out :
  Re.reaches n sets caps k out -> Re.reaches n false caps k out.
Proof.
  intros (s1 & c1 & Hk & Hmono & _). exists s1, c1. repeat split; auto.
  discriminate.
Qed.

Lemma reaches_single (p : ascii -> bool) s caps k out :
  Re.single p s caps k = Some out -> Re.reaches n false caps k out.
Proof.
  unfold Re.single. destruct s as [| x s']; [discriminate |].
  destruct (p x); [| discriminate].
  intros Hk. exists s', caps. repeat split; auto. discriminate.
Qed.

Lemma reaches_repeat step :
  (forall s caps k out, step s caps k = Some out -> Re.reaches n false caps k out) ->
  forall fuel s caps k out,
    Re.repeat step fuel s caps k = Some out -> Re.reaches n false caps k out.
Proof.
  intros Hstep. induction fuel as [| f IH]; intros s caps k out; simpl.
  - intros Hk. exists s, caps. repeat split; auto. discriminate.
  - destruct (step s caps _) as [c |] eqn:Hs.
    + intros [= ->]. apply Hstep in Hs.
      destruct Hs as (s1 & c1 & Hk & Hmono & _).
      destruct (length s1 <? length s)%nat; [| discriminate].
      apply IH in Hk. destruct Hk as (s2 & c2 & Hk2 & Hmono2 & _).
      exists s2, c2. repeat split; auto. discriminate.
    + intros Hk. exists s, caps. repeat split; auto. discriminate.
Qed.

Lemma reaches_run (r : Re.regex) :
  forall s caps k out,
    Re.run ignorecase r s caps k = Some out ->
    Re.reaches n (Re.always_sets n r) caps k out.
Proof.
  induction r as [| c | | items | r1 IH1 r2 IH2 | r1 IH1 r2 IH2
                 | r1 IH1 | r1 IH1 | r1 IH1 | i r1 IH1];
    intros s caps k out; cbn [Re.run Re.always_sets].
  - intros Hk. exists s, caps. repeat split; auto. discriminate.
  - apply reaches_single.
  - apply reaches_single.
  - apply reaches_single.
  - intros H. apply IH1 in H. destruct H as (s1 & c1 & H & Hmono1 & Hset1).
    apply IH2 in H. destruct H as (s2 & c2 & Hk & Hmono2 & Hset2).
    exists s2, c2. repeat split; auto.
    intros Hs. apply orb_true_iff in Hs. destruct Hs; auto.
  - destruct (Re.run ignorecase r1 s caps k) as [c |] eqn:H1.
    + intros [= ->]. apply IH1 in H1. destruct H1 as (s1 & c1 & Hk & Hmono & Hset).
      exists s1, c1. repeat split; auto.
      intros Hs. apply andb_true_iff in Hs. tauto.
    + intros H2. apply IH2 in H2. destruct H2 as (s1 & c1 & Hk & Hmono & Hset).
      exists s1, c1. repeat split; auto.
      intros Hs. apply andb_true_iff in Hs. tauto.
  - apply reaches_repeat. intros s' caps' k' out' H.
    apply IH1 in H. eapply reaches_weaken; eassumption.
  - intros H. apply IH1 in H. destruct H as (s1 & c1 & H & Hmono1 & Hset1).
    apply reaches_repeat in H.
    + destruct H as (s2 & c2 & Hk & Hmono2 & _). exists s2, c2. repeat split; auto.
    + intros s' caps' k' out' H'. apply IH1 in H'.
      eapply reaches_weaken; eassumption.
  - destruct (Re.run ignorecase r1 s caps k) as [c |] eqn:H1.
    + intros [= ->]. apply IH1 in H1. eapply reaches_weaken; eassumption.
    + intros Hk. exists s, caps. repeat split; auto. discriminate.
  - intros H. apply IH1 in H. destruct H as (s1 & c1 & Hk & Hmono & Hset).
    eexists _, _. split; [exact Hk |]. simpl. split.
    + intros Hc. rewrite (Hmono Hc). apply orb_true_r.
    + intros Hs. apply orb_true_iff in Hs. destruct Hs as [-> | Hs]; [reflexivity |].
      rewrite (Hset Hs). apply orb_true_r.
Qed.

Lemma scan_has_group (r : Re.regex) (s : list ascii) (m : Re.captures) :
  Re.always_sets n r = true ->
  Re.scan ignorecase r s = Some m -> Re.has_group n m = true.
Proof.
  intros Hsets. induction s as [| x s IH]; simpl.
  - destruct (Re.match_here ignorecase r []) as [c |] eqn:Hm; [| discriminate].
    intros [= ->]. unfold Re.match_here in Hm. apply reaches_run in Hm.
    destruct Hm as (s1 & c1 & [= <-] & _ & Hset). simpl.
    rewrite (Hset Hsets). apply orb_true_r.
  - destruct (Re.match_here ignorecase r (x :: s)) as [c |] eqn:Hm; [| exact IH].
    intros [= ->]. unfold Re.match_here in Hm. apply reaches_run in Hm.
    destruct Hm as (s1 & c1 & [= <-] & _ & Hset). simpl.
    rewrite (Hset Hsets). apply orb_true_r.
Qed.

End Groups.

Lemma has_group_group (n : nat) (m : Re.captures) :
  Re.has_group n m = true -> exists s, Re.group m n = Some s.
Proof.
  induction m as [| [i s] m IH]; simpl; [discriminate |].
  destruct (Nat.eqb i n); simpl; eauto.
Qed.

(** [float(m.group(n))] returns or raises [ValueError] for a match of a
    pattern that always sets group [n]. *)
Lemma float_group_of_search (pattern text : string) (f : Re.flag) (n : nat)
  (m : Re.captures) :
  Re.pattern_sets n pattern = true ->
  Re.search pattern text f = Some m ->
  returns_or_value_error (float_group m n).
Proof.
  unfold Re.pattern_sets, Re.search.
  destruct (Re.compile pattern) as [r |]; [| discriminate].
  intros Hsets Hscan. apply (scan_has_group n _ r _ m Hsets) in Hscan.
  destruct (has_group_group n m Hscan) as [s Hs].
  unfold float_group, PyFloat.of_str, returns_or_value_error. rewrite Hs.
  destruct (PyFloat.of_chars _); eauto.
Qed.

Lemma returns_or_value_error_some (r : res float) :
  returns_or_value_error r ->
  returns_or_value_error (let* f := r in Ok (Some f)).
Proof.
  intros [[v ->] | ->]; [left; simpl; eauto | right; reflexivity].
Qed.

Lemma returns_none : returns_or_value_error (Ok (None : option float)).
Proof. left. eauto. Qed.

(** One step of a parser: a match whose group is converted, or the next
    step. *)
Ltac parser_step :=
  match goal with
  | |- returns_or_value_error
         (match Re.search ?pat ?text ?f with Some _ => _ | None => _ end) =>
      let Hm := fresh "Hm" in
      destruct (Re.search pat text f) eqn:Hm;
      [apply returns_or_value_error_some;
       apply (float_group_of_search pat text f); [reflexivity | exact Hm]
      |]
  end.

Lemma parse_windows_netsh_outcome (output : string) :
  returns_or_value_error (parse_windows_netsh output).
Proof. unfold parse_windows_netsh. repeat parser_step. apply returns_none. Qed.

Lemma parse_linux_iwconfig_outcome (output : string) :
  returns_or_value_error (parse_linux_iwconfig output).
Proof. unfold parse_linux_iwconfig. repeat parser_step. apply returns_none. Qed.

Lemma parse_macos_airport_outcome (output : string) :
  returns_or_value_error (parse_macos_airport output).
Proof. unfold parse_macos_airport. repeat parser_step. apply returns_none. Qed.

(** C5, as the claim states it, fails for the parsers: each of them raises
    [ValueError] on a text that its pattern matches, since the captured
    token is then passed to [float()]. *)
Lemma parsers_raise_value_error :
  parse_windows_netsh "d\Mbps" = Raise ValueError
  /\ parse_linux_iwconfig "Bit Rate=\.\Mb" = Raise ValueError
  /\ parse_macos_airport "lastTxRate:\." = Raise ValueError.
Proof. repeat split; vm_compute; reflexivity. Qed.

(** C5, amended. For every text each parser returns (a float or [None])
    or raises [ValueError], and on the empty text it returns [None].
    [get_link_speed] never raises, whatever the platform and whatever the
    commands do: it returns a float or [None], [None] on a platform it
    does not recognise, and [None] when every command fails to run. *)
Theorem link_speed_degrades_to_unknown
  (output : string) (run : runner) (p : string) (e : exn) :
  returns_or_value_error (parse_windows_netsh output)
  /\ returns_or_value_error (parse_linux_iwconfig output)
  /\ returns_or_value_error (parse_macos_airport output)
  /\ parse_windows_netsh "" = Ok None
  /\ parse_linux_iwconfig "" = Ok None
  /\ parse_macos_airport "" = Ok None
  /\ (exists v, get_link_speed run p = Ok v)
  /\ (recognized p = true \/ get_link_speed run p = Ok None)
  /\ get_link_speed (fun _ _ => Raise e) p = Ok None.
Proof.
  split; [apply parse_windows_netsh_outcome |].
  split; [apply parse_linux_iwconfig_outcome |].
  split; [apply parse_macos_airport_outcome |].
  do 3 (split; [vm_compute; reflexivity |]).
  unfold get_link_speed, recognized, try_except.
  destruct (Text.startswith p "win");
    [| destruct (Text.startswith p "linux");
       [| destruct (Text.startswith p "darwin")]].
  - split; [destruct (get_windows_link_speed run); eauto |].
    split; [left; reflexivity | vm_compute; reflexivity].
  - split; [destruct (get_linux_link_speed run); eauto |].
    split; [left; reflexivity | vm_compute; reflexivity].
  - split; [destruct (get_macos_link_speed run); eauto |].
    split; [left; reflexivity | vm_compute; reflexivity].
  - split; [eauto |]. split; [right |]; reflexivity.
Qed.


(** ** The captured token is never a number *)

Lemma in_all_ascii (x : ascii) : In x Capture.all_ascii.
Proof.
  unfold Capture.all_ascii. rewrite <- (ascii_nat_embedding x).
  apply in_map, in_seq. pose proof (nat_ascii_bounded x). lia.
Qed.

Lemma atom_within_sound (p accepts : ascii -> bool) (x : ascii) :
  Capture.atom_within p accepts = true -> accepts x = true -> p x = true.
Proof.
  unfold Capture.atom_within. rewrite forallb_forall. intros H Hx.
  specialize (H x (in_all_ascii x)). rewrite Hx in H. exact H.
Qed.

Section Tracking.

Variable n : nat.
Variable p : ascii -> bool.
Variable ignorecase : bool.

Lemma tracks_single (accepts : ascii -> bool) s caps k out :
  Re.single accepts s caps k = Some out ->
  Capture.tracks n p (Capture.atom_within p accepts) true s caps k out.
Proof.
  unfold Re.single. destruct s as [| x s']; [discriminate |].
  destruct (accepts x) eqn:Hx; [| discriminate].
  intros Hk. exists [x], s', caps. repeat split; auto.
  intros Hw. simpl. rewrite (atom_within_sound p accepts x Hw Hx). reflexivity.
Qed.

Lemma tracks_repeat (cons grp : bool) step :
  (forall s caps k out, step s caps k = Some out ->
                        Capture.tracks n p cons grp s caps k out) ->
  forall fuel s caps k out,
    Re.repeat step fuel s caps k = Some out ->
    Capture.tracks n p cons grp s caps k out.
Proof.
  intros Hstep. induction fuel as [| f IH]; intros s caps k out; simpl.
  - intros Hk. exists [], s, caps. repeat split; auto.
  - destruct (step s caps _) as [c |] eqn:Hs.
    + intros [= ->]. apply Hstep in Hs.
      destruct Hs as (pre1 & s1 & c1 & -> & Hk & Hp1 & Hc1).
      destruct (length s1 <? length (pre1 ++ s1))%nat; [| discriminate].
      apply IH in Hk. destruct Hk as (pre2 & s2 & c2 & -> & Hk2 & Hp2 & Hc2).
      exists (pre1 ++ pre2), s2, c2. rewrite <- app_assoc. repeat split; auto.
      intros Hc. rewrite forallb_app, Hp1, Hp2 by assumption. reflexivity.
    + intros Hk. exists [], s, caps. repeat split; auto.
Qed.

Lemma tracks_run (r : Re.regex) :
  forall s caps k out,
    Re.run ignorecase r s caps k = Some out ->
    Capture.tracks n p (Capture.consumes_only ignorecase p r)
      (Capture.group_within ignorecase n p r) s caps k out.
Proof.
  induction r as [| c | | items | r1 IH1 r2 IH2 | r1 IH1 r2 IH2
                 | r1 IH1 | r1 IH1 | r1 IH1 | i r1 IH1];
    intros s caps k out;
    cbn [Re.run Capture.consumes_only Capture.group_within].
  - intros Hk. exists [], s, caps. repeat split; auto.
  - apply tracks_single.
  - apply tracks_single.
  - apply tracks_single.
  - intros H. apply IH1 in H. destruct H as (pre1 & s1 & c1 & -> & H & Hp1 & Hc1).
    apply IH2 in H. destruct H as (pre2 & s2 & c2 & -> & Hk & Hp2 & Hc2).
    exists (pre1 ++ pre2), s2, c2. rewrite <- app_assoc. repeat split; auto.
    + intros Hc. apply andb_true_iff in Hc. destruct Hc as [Ha Hb].
      rewrite forallb_app, Hp1, Hp2 by assumption. reflexivity.
    + intros Hg Hcaps. apply andb_true_iff in Hg. destruct Hg as [Ha Hb]. auto.
  - destruct (Re.run ignorecase r1 s caps k) as [c |] eqn:H1.
    + intros [= ->]. apply IH1 in H1.
      destruct H1 as (pre & s1 & c1 & -> & Hk & Hp & Hc).
      exists pre, s1, c1. repeat split; auto.
      * intros H. apply andb_true_iff in H. tauto.
      * intros H. apply andb_true_iff in H. tauto.
    + intros H2. apply IH2 in H2.
      destruct H2 as (pre & s1 & c1 & -> & Hk & Hp & Hc).
      exists pre, s1, c1. repeat split; auto.
      * intros H. apply andb_true_iff in H. tauto.
      * intros H. apply andb_true_iff in H. tauto.
  - apply tracks_repeat. exact IH1.
  - intros H. apply IH1 in H. destruct H as (pre1 & s1 & c1 & -> & H & Hp1 & Hc1).
    apply (tracks_repeat _ _ _ IH1) in H.
    destruct H as (pre2 & s2 & c2 & -> & Hk & Hp2 & Hc2).
    exists (pre1 ++ pre2), s2, c2. rewrite <- app_assoc. repeat split; auto.
    intros Hc. rewrite forallb_app, Hp1, Hp2 by assumption. reflexivity.
  - destruct (Re.run ignorecase r1 s caps k) as [c |] eqn:H1.
    + intros [= ->]. apply IH1 in H1. exact H1.
    + intros Hk. exists [], s, caps. repeat split; auto.
  - intros H. apply IH1 in H. destruct H as (pre & s1 & c1 & -> & Hk & Hp & Hc).
    rewrite length_app, Nat.add_sub, firstn_app, firstn_all, Nat.sub_diag in Hk.
    simpl in Hk. rewrite app_nil_r in Hk.
    exists pre, s1, ((i, pre) :: c1). repeat split; auto.
    intros Hg Hcaps. apply andb_true_iff in Hg. destruct Hg as [Ha Hb].
    simpl. rewrite (Hc Hb Hcaps), andb_true_r.
    destruct (Nat.eqb i n); [rewrite (Hp Ha) |]; reflexivity.
Qed.

Lemma scan_caps_within (r : Re.regex) (s : list ascii) (m : Re.captures) :
  n <> O ->
  Capture.group_within ignorecase n p r = true ->
  Re.scan ignorecase r s = Some m -> Capture.caps_within n p m = true.
Proof.
  intros Hn Hg.
  assert (forall s0, Re.match_here ignorecase r s0 = Some m ->
                     Capture.caps_within n p m = true) as Hhere.
  { intros s0 Hm. unfold Re.match_here in Hm. apply tracks_run in Hm.
    destruct Hm as (pre & s1 & c1 & _ & [= <-] & _ & Hc). simpl.
    rewrite (Hc Hg eq_refl), andb_true_r.
    destruct n; [contradiction | reflexivity]. }
  induction s as [| x s IH]; simpl.
  - destruct (Re.match_here ignorecase r []) as [c |] eqn:Hm; [| discriminate].
    intros [= ->]. eapply Hhere; eassumption.
  - destruct (Re.match_here ignorecase r (x :: s)) as [c |] eqn:Hm; [| exact IH].
    intros [= ->]. eapply Hhere; eassumption.
Qed.

Lemma group_caps_within (m : Re.captures) (t : string) :
  Capture.caps_within n p m = true ->
  Re.group m n = Some t -> forallb p (Text.chars t) = true.
Proof.
  induction m as [| [i s] m IH]; simpl; [discriminate |].
  intros H. apply andb_true_iff in H. destruct H as [Hi Hm].
  destruct (Nat.eqb i n); [| auto].
  intros [= <-]. unfold Text.chars, Text.text.
  rewrite list_ascii_of_string_of_list_ascii. exact Hi.
Qed.

End Tracking.

(** What separates a token character from everything [float()] reads. *)
Lemma token_char_facts (c : ascii) :
  Capture.token_char c = true ->
  PyFloat.is_blank c = false
  /\ Ascii.eqb c PyFloat.underscore = false
  /\ Text.is_digit c = false
  /\ Ascii.eqb c "-" = false /\ Ascii.eqb c "+" = false
  /\ Ascii.eqb (Text.lower c) "i" = false /\ Ascii.eqb (Text.lower c) "n" = false.
Proof.
  unfold Capture.token_char, Re.one_of. rewrite existsb_exists.
  intros (x & Hin & Hx). apply Ascii.eqb_eq in Hx. subst x.
  simpl in Hin.
  repeat (destruct Hin as [<- | Hin]; [repeat split; reflexivity |]).
  contradiction.
Qed.

Lemma lstrip_by_head (q : ascii -> bool) (l : list ascii) :
  match l with c :: _ => q c = false | [] => True end ->
  Text.lstrip_by q l = l.
Proof. destruct l as [| c l]; simpl; [reflexivity |]. intros ->. reflexivity. Qed.

Lemma strip_by_tokens (l : list ascii) :
  forallb Capture.token_char l = true -> Text.strip_by PyFloat.is_blank l = l.
Proof.
  intros Hl. unfold Text.strip_by.
  assert (forall l0, forallb Capture.token_char l0 = true ->
                     Text.lstrip_by PyFloat.is_blank l0 = l0) as Hstrip.
  { intros l0 H0. apply lstrip_by_head. destruct l0 as [| c l0]; [exact I |].
    simpl in H0. apply andb_true_iff in H0.
    apply (token_char_facts c), H0. }
  rewrite (Hstrip l Hl), Hstrip, rev_involutive; [reflexivity |].
  rewrite forallb_forall in *. intros x Hx. apply Hl, in_rev, Hx.
Qed.

Lemma drop_underscores_tokens (l : list ascii) (prev : option ascii) :
  match prev with
  | Some q => Ascii.eqb q PyFloat.underscore = false
  | None => True
  end ->
  forallb Capture.token_char l = true ->
  PyFloat.drop_underscores prev l = Some l.
Proof.
  revert prev. induction l as [| c l IH]; intros prev Hprev Hl; simpl.
  - destruct prev as [q |]; [rewrite Hprev |]; reflexivity.
  - simpl in Hl. apply andb_true_iff in Hl. destruct Hl as [Hc Hl].
    destruct (token_char_facts c Hc) as (_ & Hu & _).
    rewrite Hu. destruct prev as [q |].
    + rewrite Hprev. simpl. rewrite (IH (Some c) Hu Hl). reflexivity.
    + rewrite (IH (Some c) Hu Hl). reflexivity.
Qed.

Lemma take_digits_tokens (l : list ascii) :
  forallb Capture.token_char l = true -> PyFloat.take_digits l = ([], l).
Proof.
  destruct l as [| c l]; simpl; [reflexivity |].
  intros Hl. apply andb_true_iff in Hl. destruct Hl as [Hc _].
  destruct (token_char_facts c Hc) as (_ & _ & -> & _). reflexivity.
Qed.

(** [float()] rejects every text made of token characters. *)
Lemma of_chars_tokens (l : list ascii) :
  forallb Capture.token_char l = true -> PyFloat.of_chars l = None.
Proof.
  intros Hl. unfold PyFloat.of_chars.
  rewrite (strip_by_tokens l Hl), (drop_underscores_tokens l None I Hl).
  assert (PyFloat.take_sign l = (false, l)) as ->.
  { destruct l as [| c l']; [reflexivity |]. simpl in *.
    apply andb_true_iff in Hl. destruct Hl as [Hc _].
    destruct (token_char_facts c Hc) as (_ & _ & _ & -> & -> & _). reflexivity. }
  assert (String.eqb (PyFloat.lower_text l) "inf" = false
          /\ String.eqb (PyFloat.lower_text l) "infinity" = false
          /\ String.eqb (PyFloat.lower_text l) "nan" = false) as (-> & -> & ->).
  { destruct l as [| c l']; [repeat split; reflexivity |]. simpl in Hl.
    apply andb_true_iff in Hl. destruct Hl as [Hc _].
    destruct (token_char_facts c Hc) as (_ & _ & _ & _ & _ & Hi & Hn).
    unfold PyFloat.lower_text, Text.text. simpl. rewrite Hi, Hn.
    repeat split; reflexivity. }
  simpl. unfold PyFloat.parse_decimal. rewrite (take_digits_tokens l Hl).
  destruct l as [| c l']; [reflexivity |].
  simpl in Hl. apply andb_true_iff in Hl. destruct Hl as [_ Hl'].
  destruct (Ascii.eqb c "."); [rewrite (take_digits_tokens l' Hl') |]; reflexivity.
Qed.

(** For a match of a pattern whose group [n] always takes part and holds
    only token characters, [float(m.group(n))] raises [ValueError]. *)
Lemma float_group_raises (pattern text : string) (f : Re.flag) (n : nat)
  (m : Re.captures) :
  n <> O ->
  Re.pattern_sets n pattern = true ->
  Capture.pattern_within f n Capture.token_char pattern = true ->
  Re.search pattern text f = Some m ->
  float_group m n = Raise ValueError.
Proof.
  unfold Re.pattern_sets, Capture.pattern_within, Re.search.
  destruct (Re.compile pattern) as [r |]; [| discriminate].
  intros Hn Hsets Hwithin Hscan.
  pose proof (scan_has_group n _ r _ m Hsets Hscan) as Hhas.
  pose proof (scan_caps_within n Capture.token_char _ r _ m Hn Hwithin Hscan) as Hcaps.
  destruct (has_group_group n m Hhas) as [t Ht].
  unfold float_group, PyFloat.of_str. rewrite Ht.
  rewrite (of_chars_tokens _ (group_caps_within n _ m t Hcaps Ht)). reflexivity.
Qed.

(** One step of a parser as written: a match raises, or the next step. *)
Ltac never_a_number :=
  match goal with
  | |- (match Re.search ?pat ?text ?f with Some _ => _ | None => _ end) = Ok None
       \/ _ =>
      let Hm := fresh "Hm" in
      destruct (Re.search pat text f) eqn:Hm;
      [right;
       erewrite (float_group_raises pat text f) by
         (first [exact Hm | reflexivity | discriminate]);
       reflexivity
      |]
  end.

Lemma parse_windows_netsh_no_number (output : string) :
  parse_windows_netsh output = Ok None \/ parse_windows_netsh output = Raise ValueError.
Proof. unfold parse_windows_netsh. repeat never_a_number. left; reflexivity. Qed.

Lemma parse_linux_iwconfig_no_number (output : string) :
  parse_linux_iwconfig output = Ok None \/ parse_linux_iwconfig output = Raise ValueError.
Proof. unfold parse_linux_iwconfig. repeat never_a_number. left; reflexivity. Qed.

Lemma parse_macos_airport_no_number (output : string) :
  parse_macos_airport output = Ok None \/ parse_macos_airport output = Raise ValueError.
Proof. unfold parse_macos_airport. repeat never_a_number. left; reflexivity. Qed.

(** X1. As written, no parser ever returns a number: on every text each
    one returns [None] or raises [ValueError]. *)
Theorem parsers_never_return_a_number (output : string) :
  (parse_windows_netsh output = Ok None \/ parse_windows_netsh output = Raise ValueError)
  /\ (parse_linux_iwconfig output = Ok None
      \/ parse_linux_iwconfig output = Raise ValueError)
  /\ (parse_macos_airport output = Ok None
      \/ parse_macos_airport output = Raise ValueError).
Proof.
  split; [apply parse_windows_netsh_no_number |].
  split; [apply parse_linux_iwconfig_no_number | apply parse_macos_airport_no_number].
Qed.

Lemma run_cmd_returns (run : runner) (cmd : string) : exists t, run_cmd run cmd = Ok t.
Proof.
  unfold run_cmd, try_except, bind. destruct (run _ _); eauto.
Qed.

Lemma get_windows_link_speed_outcome (run : runner) :
  get_windows_link_speed run = Ok None \/ get_windows_link_speed run = Raise ValueError.
Proof.
  unfold get_windows_link_speed.
  destruct (run_cmd_returns run "netsh wlan show interfaces") as [t ->].
  apply parse_windows_netsh_no_number.
Qed.

Lemma get_linux_link_speed_outcome (run : runner) :
  get_linux_link_speed run = Ok None \/ get_linux_link_speed run = Raise ValueError.
Proof.
  unfold get_linux_link_speed.
  destruct (run_cmd_returns run "iwconfig 2>/dev/null") as [t1 ->].
  destruct (run_cmd_returns run "iw dev wlan0 link 2>/dev/null") as [t2 ->].
  destruct (run_cmd_returns run
              "nmcli -t -f ACTIVE,SSID,BITRATE dev wifi | grep '^yes' 2>/dev/null")
    as [t3 ->].
  cbn [bind].
  destruct (parse_linux_iwconfig_no_number t1) as [-> | ->]; [| right; reflexivity].
  cbn [bind speed_truthy].
  destruct (parse_linux_iwconfig_no_number t2) as [-> | ->]; [| right; reflexivity].
  cbn [bind speed_truthy].
  never_a_number. left; reflexivity.
Qed.

Lemma get_macos_link_speed_outcome (run : runner) :
  get_macos_link_speed run = Ok None \/ get_macos_link_speed run = Raise ValueError.
Proof.
  unfold get_macos_link_speed.
  destruct (run_cmd_returns run (airport_path ++ " -I 2>/dev/null")%string) as [t ->].
  cbn [bind].
  destruct (parse_macos_airport_no_number t) as [-> | ->]; [left | right]; reflexivity.
Qed.

Lemma get_link_speed_none (run : runner) (p : string) : get_link_speed run p = Ok None.
Proof.
  unfold get_link_speed, try_except.
  destruct (Text.startswith p "win");
    [destruct (get_windows_link_speed_outcome run) as [-> | ->]; reflexivity |].
  destruct (Text.startswith p "linux");
    [destruct (get_linux_link_speed_outcome run) as [-> | ->]; reflexivity |].
  destruct (Text.startswith p "darwin");
    [destruct (get_macos_link_speed_outcome run) as [-> | ->]; reflexivity |].
  reflexivity.
Qed.

(** X2. As written, [get_link_speed] returns [None] on every platform,
    whatever the commands print: the three platform probes return [None]
    or raise [ValueError], which the dispatcher turns into [None]. *)
Theorem get_link_speed_always_unknown (run : runner) (p : string) :
  get_link_speed run p = Ok None
  /\ (get_windows_link_speed run = Ok None
      \/ get_windows_link_speed run = Raise ValueError)
  /\ (get_linux_link_speed run = Ok None \/ get_linux_link_speed run = Raise ValueError)
  /\ (get_macos_link_speed run = Ok None \/ get_macos_link_speed run = Raise ValueError).
Proof.
  split; [apply get_link_speed_none |].
  split; [apply get_windows_link_speed_outcome |].
  split; [apply get_linux_link_speed_outcome | apply get_macos_link_speed_outcome].
Qed.

(** X3. Refreshing the link speed always ends the same way: the label
    reads [Unknown or not connected], the log gains the entry
    [Link speed: unknown], the status is [Ready] and the refresh button
    is enabled again; nothing else in the window changes. *)
Theorem refresh_link_speed_shows_unknown (run : runner) (p ts : string)
  (describe : exn -> string) (w : window) :
  refresh_link_speed run p ts describe w
  = {| link_var := "Unknown or not connected";
       ping_var := ping_var w; dl_var := dl_var w; ul_var := ul_var w;
       status_var := "Ready";
       log_text := (log_text w ++ "[" ++ ts ++ "] Link speed: unknown\n")%string;
       refresh_btn := true; test_btn := test_btn w; dialogs := dialogs w |}.
Proof.
  unfold refresh_link_speed, refresh_job. rewrite get_link_speed_none.
  reflexivity.
Qed.

(** ** [run_speedtest]: more of what it does *)

Lemma try_variants_outcome (h : host) (vs : list (list string)) :
  forall n, (exists r, try_variants h n vs = Ok r) \/ try_variants h n vs = Raise all_failed.
Proof.
  induction vs as [| args vs IH]; intros n; simpl; [right; reflexivity |].
  unfold try_except. destruct (attempt h n args); eauto.
Qed.

(** X4. Whatever the library, the executables and the documents do,
    [run_speedtest] either returns a result or raises one of its own two
    [RuntimeError]s; no other exception leaves it. *)
Theorem run_speedtest_outcome (h : host) (cb : callback) :
  (exists r, run_speedtest h cb = Ok r)
  \/ run_speedtest h cb = Raise not_found
  \/ run_speedtest h cb = Raise all_failed.
Proof.
  unfold run_speedtest, try_except.
  destruct (module_path h cb) as [r | e]; [eauto |].
  unfold cli_path. destruct (find_prog h) as [prog |]; [| auto].
  cbn [path_truthy]. destruct (String.eqb prog ""); cbn [negb]; [auto |].
  destruct (try_variants_outcome h (variants prog) 0) as [Hok | Hfail]; auto.
Qed.

(** The result when the top-level lookups all yield a value. *)
Lemma normalize_of_lookups (data ping dl ul : value) (clock : Z) :
  lookup_ping data = Ok ping ->
  lookup_download data = Ok dl ->
  lookup_upload data = Ok ul ->
  is_none dl = false -> is_none ul = false ->
  normalize data clock
  = (let* fd := to_float dl in
     let* fu := to_float ul in
     let* fp := to_float ping in
     Ok {| download_bps := fd; upload_bps := fu; ping_ms := fp; timestamp := clock |}).
Proof.
  intros Hp Hd Hu Nd Nu. unfold normalize, nested_structure.
  rewrite Hp, Hd, Hu. cbn [bind]. rewrite Nd, Nu. reflexivity.
Qed.

(** X5. Every result the normaliser returns is made of the top-level
    lookups: the document is an object, the download and upload lookups
    of lines 159 and 160 both yielded a value, and the three fields are
    the conversions of those values and of the ping lookup; the nested
    [bandwidth * 8] of lines 165 and 166 is in no result. *)
Theorem normalize_result_is_top_level (data : value) (clock : Z) (r : SpeedTestResult) :
  normalize data clock = Ok r ->
  exists m ping dl ul,
    data = Obj m
    /\ lookup_ping data = Ok ping
    /\ lookup_download data = Ok dl /\ is_none dl = false
    /\ lookup_upload data = Ok ul /\ is_none ul = false
    /\ to_float dl = Ok (download_bps r)
    /\ to_float ul = Ok (upload_bps r)
    /\ to_float ping = Ok (ping_ms r)
    /\ timestamp r = clock.
Proof.
  intros Hn.
  destruct data as [| b | n | f | s | l | m]; try discriminate.
  destruct (lookup_ping (Obj m)) as [ping | e] eqn:Hp;
    [| unfold normalize in Hn; rewrite Hp in Hn; discriminate].
  pose proof (lookup_rate_obj m "download" "bytes_sent" "downloadBytes") as Hd.
  pose proof (lookup_rate_obj m "upload" "bytes_received" "uploadBytes") as Hu.
  fold (lookup_download (Obj m)) in Hd. fold (lookup_upload (Obj m)) in Hu.
  set (dl := if truthy _ then _ else _) in Hd.
  set (ul := if truthy _ then _ else _) in Hu.
  destruct (is_none dl || is_none ul) eqn:Hnone.
  - pose proof (normalize_absent_rate (Obj m) dl ul clock Hd Hu Hnone) as Hfail.
    rewrite Hn in Hfail. discriminate.
  - apply orb_false_iff in Hnone. destruct Hnone as [Nd Nu].
    rewrite (normalize_of_lookups (Obj m) ping dl ul clock Hp Hd Hu Nd Nu) in Hn.
    destruct (to_float dl) as [fd |] eqn:Fd; [| discriminate].
    destruct (to_float ul) as [fu |] eqn:Fu; [| discriminate].
    destruct (to_float ping) as [fp |] eqn:Fp; [| discriminate].
    simpl in Hn. injection Hn as <-.
    exists m, ping, dl, ul. simpl.
    repeat (split; [first [assumption | reflexivity] |]). reflexivity.
Qed.

Lemma normalize_result_is_top_level_witness :
  normalize (Obj doc_top_level) 0
  = Ok {| download_bps := f54e6; upload_bps := f12e6; ping_ms := f12_3; timestamp := 0 |}
  /\ exists m ping dl ul,
       Obj doc_top_level = Obj m
       /\ lookup_ping (Obj doc_top_level) = Ok ping
       /\ lookup_download (Obj doc_top_level) = Ok dl /\ is_none dl = false
       /\ lookup_upload (Obj doc_top_level) = Ok ul /\ is_none ul = false
       /\ to_float dl = Ok f54e6 /\ to_float ul = Ok f12e6
       /\ to_float ping = Ok f12_3 /\ 0 = 0.
Proof.
  assert (normalize (Obj doc_top_level) 0
          = Ok {| download_bps := f54e6; upload_bps := f12e6; ping_ms := f12_3;
                  timestamp := 0 |}) as H by reflexivity.
  split; [exact H |].
  exact (normalize_result_is_top_level (Obj doc_top_level) 0 _ H).
Defined.

(** X6. A document that is not an object (a list, a string, a number,
    [true], [false] or [null]) fails with [AttributeError] at the first
    lookup, and so does the attempt that printed it. *)
Theorem normalize_needs_an_object (h : host) (n : nat) (args : list string)
  (proc : completed) (data : value) (clock : Z) :
  is_obj data = false ->
  normalize data clock = Raise AttributeError
  /\ (spawn h n (Argv args) speedtest_kwargs = Ok proc ->
      json_loads h (if String.eqb (Text.strip (stdout proc)) ""
                    then Text.strip (stderr proc)
                    else Text.strip (stdout proc)) = Ok data ->
      attempt h n args = Raise AttributeError).
Proof.
  intros Hobj.
  assert (forall c, normalize data c = Raise AttributeError) as Hn
    by (intros c; destruct data; try discriminate; reflexivity).
  split; [apply Hn |].
  intros Hs Hj. unfold attempt. rewrite Hs. cbn [bind]. rewrite Hj. apply Hn.
Qed.

Lemma normalize_needs_an_object_witness :
  is_obj (Arr []) = false
  /\ normalize (Arr []) 0 = Raise AttributeError
  /\ attempt {| lib := no_library; which := fun _ => None;
                spawn := fun _ => prints 0 "[]";
                json_loads := fun _ => Ok (Arr []); now := 0 |} 0 ["speedtest"; "--json"]
     = Raise AttributeError.
Proof.
  split; [reflexivity |].
  pose proof (normalize_needs_an_object
                {| lib := no_library; which := fun _ => None;
                   spawn := fun _ => prints 0 "[]";
                   json_loads := fun _ => Ok (Arr []); now := 0 |}
                0 ["speedtest"; "--json"]
                {| returncode := 0; stdout := "[]"; stderr := "" |}
                (Arr []) 0 eq_refl) as [H1 H2].
  split; [exact H1 | apply H2; reflexivity].
Defined.

(** X7. When [ping] is missing or false the ping comes from the server
    entry: a true [server.ping] is taken as it is; a [server] that is not
    an object fails the attempt with [AttributeError], whatever the rates
    are; and without a [server] the ping is [float(latency)], 0.0 when
    there is no [latency]. *)
Theorem ping_fallbacks (m : gmap string value) (clock : Z) :
  truthy (or_default (m !! "ping")) = false ->
  (forall sm p, m !! "server" = Some (Obj sm) -> sm !! "ping" = Some p ->
                truthy p = true -> lookup_ping (Obj m) = Ok p)
  /\ (forall v, m !! "server" = Some v -> is_obj v = false ->
                lookup_ping (Obj m) = Raise AttributeError
                /\ normalize (Obj m) clock = Raise AttributeError)
  /\ (m !! "server" = None ->
      lookup_ping (Obj m)
      = (let* f := to_float (match m !! "latency" with
                             | Some l => l
                             | None => Int 0
                             end) in
         Ok (Float f))).
Proof.
  intros Hping.
  assert (forall k : res value,
            (let* a := get (Obj m) "ping" Null in or_else a k) = k) as Hskip.
  { intros k. unfold get, bind, or_else. fold (or_default (m !! "ping")).
    rewrite Hping. reflexivity. }
  split; [| split].
  - intros sm p Hs Hp Tp. unfold lookup_ping. rewrite Hskip.
    unfold get, bind, or_else. rewrite Hs, Hp, Tp. reflexivity.
  - intros v Hs Hv.
    assert (lookup_ping (Obj m) = Raise AttributeError) as Hl.
    { unfold lookup_ping. rewrite Hskip. unfold get at 1, bind at 1. rewrite Hs.
      destruct v; try discriminate; reflexivity. }
    split; [exact Hl |]. unfold normalize. rewrite Hl. reflexivity.
  - intros Hs. unfold lookup_ping. rewrite Hskip.
    unfold get, bind, or_else. rewrite Hs, lookup_empty. reflexivity.
Qed.

Lemma ping_fallbacks_witness :
  truthy (or_default (doc_server_ping !! "ping")) = false
  /\ lookup_ping (Obj doc_server_ping) = Ok (Float f8)
  /\ truthy (or_default (doc_server_text !! "ping")) = false
  /\ normalize (Obj doc_server_text) 0 = Raise AttributeError
  /\ truthy (or_default (doc_no_ping !! "ping")) = false
  /\ lookup_ping (Obj doc_no_ping) = Ok (Float f0).
Proof.
  assert (truthy (or_default (doc_server_ping !! "ping")) = false) as H1 by reflexivity.
  assert (truthy (or_default (doc_server_text !! "ping")) = false) as H2 by reflexivity.
  assert (truthy (or_default (doc_no_ping !! "ping")) = false) as H3 by reflexivity.
  split; [exact H1 |].
  split; [apply (proj1 (ping_fallbacks doc_server_ping 0 H1)
                   {["ping" := Float f8]} (Float f8)); reflexivity |].
  split; [exact H2 |].
  split; [apply (proj1 (proj2 (ping_fallbacks doc_server_text 0 H2)) (Str "fra01"));
          reflexivity |].
  split; [exact H3 |].
  exact (proj2 (proj2 (ping_fallbacks doc_no_ping 0 H3)) eq_refl).
Defined.

(** X8. When [download] is missing or false and [bytes_sent] holds a true
    value, that value becomes the download rate as it is, with no
    multiplication by 8; likewise [bytes_received] for the upload. *)
Theorem rate_falls_back_unscaled (m : gmap string value) (b u p : value) (clock : Z) :
  truthy p = true -> m !! "ping" = Some p ->
  truthy b = true -> truthy u = true ->
  (truthy (or_default (m !! "download")) = false -> m !! "bytes_sent" = Some b ->
   m !! "upload" = Some u ->
   normalize (Obj m) clock
   = (let* fd := to_float b in
      let* fu := to_float u in
      let* fp := to_float p in
      Ok {| download_bps := fd; upload_bps := fu; ping_ms := fp; timestamp := clock |}))
  /\ (truthy (or_default (m !! "upload")) = false -> m !! "bytes_received" = Some b ->
      m !! "download" = Some u ->
      normalize (Obj m) clock
      = (let* fd := to_float u in
         let* fu := to_float b in
         let* fp := to_float p in
         Ok {| download_bps := fd; upload_bps := fu; ping_ms := fp; timestamp := clock |})).
Proof.
  intros Tp Hp Tb Tu.
  assert (forall v, truthy v = true -> is_none v = false) as Hnn
    by (intros v; destruct v; simpl; congruence).
  split; intros Hmiss Hb Hu.
  - apply normalize_of_lookups; auto.
    + apply lookup_ping_truthy; assumption.
    + unfold lookup_download. rewrite lookup_rate_obj, Hmiss, Hb. simpl.
      rewrite Tb. reflexivity.
    + apply lookup_rate_truthy; assumption.
  - apply normalize_of_lookups; auto.
    + apply lookup_ping_truthy; assumption.
    + apply lookup_rate_truthy; assumption.
    + unfold lookup_upload. rewrite lookup_rate_obj, Hmiss, Hb. simpl.
      rewrite Tb. reflexivity.
Qed.

Lemma rate_falls_back_unscaled_witness :
  truthy (Float f12_3) = true /\ doc_bytes_sent !! "ping" = Some (Float f12_3)
  /\ truthy (Int 1000) = true /\ truthy (Int 12000000) = true
  /\ truthy (or_default (doc_bytes_sent !! "download")) = false
  /\ doc_bytes_sent !! "bytes_sent" = Some (Int 1000)
  /\ doc_bytes_sent !! "upload" = Some (Int 12000000)
  /\ normalize (Obj doc_bytes_sent) 0
     = Ok {| download_bps := f1e3; upload_bps := f12e6; ping_ms := f12_3;
             timestamp := 0 |}.
Proof.
  repeat (split; [reflexivity |]).
  exact (proj1 (rate_falls_back_unscaled doc_bytes_sent (Int 1000) (Int 12000000)
                  (Float f12_3) 0 eq_refl eq_refl eq_refl eq_refl)
           eq_refl eq_refl eq_refl).
Defined.

(** X9. The third variant repeats the arguments of the first: when the
    executable answers it as it answered the first, it cannot succeed
    where the first two failed, and [run_speedtest] raises its final
    error. *)
Theorem third_variant_is_a_retry (h : host) (cb : callback) (e : exn) (prog : string) :
  module_path h cb = Raise e ->
  find_prog h = Some prog -> prog <> "" ->
  spawn h 2 (Argv [prog; "--json"]) speedtest_kwargs
  = spawn h 0 (Argv [prog; "--json"]) speedtest_kwargs ->
  is_ok (attempt h 0 [prog; "--json"]) = false ->
  is_ok (attempt h 1 [prog; "--format=json"]) = false ->
  attempt h 2 [prog; "--json"] = attempt h 0 [prog; "--json"]
  /\ run_speedtest h cb = Raise all_failed.
Proof.
  intros Hlib Hfind Hne Hsame H0 H1.
  assert (attempt h 2 [prog; "--json"] = attempt h 0 [prog; "--json"]) as H2
    by (unfold attempt; rewrite Hsame; reflexivity).
  split; [exact H2 |].
  unfold run_speedtest, try_except, cli_path. rewrite Hlib, Hfind. cbn [path_truthy].
  destruct (String.eqb_spec prog "") as [-> | _]; [contradiction |]. cbn [negb].
  apply try_variants_all_fail; [assumption | assumption | rewrite H2; exact H0].
Qed.

Lemma third_variant_is_a_retry_witness :
  module_path host_broken_cli None = Raise ImportError
  /\ find_prog host_broken_cli = Some "/usr/bin/speedtest"
  /\ is_ok (attempt host_broken_cli 0 ["/usr/bin/speedtest"; "--json"]) = false
  /\ is_ok (attempt host_broken_cli 1 ["/usr/bin/speedtest"; "--format=json"]) = false
  /\ run_speedtest host_broken_cli None = Raise all_failed.
Proof.
  repeat (split; [reflexivity |]).
  apply (third_variant_is_a_retry host_broken_cli None ImportError "/usr/bin/speedtest");
    first [reflexivity | discriminate].
Defined.

(** X10. An exception raised by the progress callback ends the library
    path like any other failure: the measurement made so far is dropped
    and the result is that of the command-line path. *)
Theorem callback_failure_switches_to_cli (h : host) (f : string -> res unit) (e : exn) :
  import_Speedtest (lib h) = Ok tt -> construct (lib h) = Ok tt ->
  get_best_server (lib h) = Ok tt ->
  (f "Running download test..." = Raise e
   \/ (f "Running download test..." = Ok tt
       /\ (exists dl, download (lib h) = Ok dl)
       /\ f "Running upload test..." = Raise e)) ->
  module_path h (Some f) = Raise e
  /\ run_speedtest h (Some f) = cli_path h.
Proof.
  intros Hi Hc Hs Hcb.
  assert (module_path h (Some f) = Raise e) as Hm.
  { unfold module_path, notify. rewrite Hi, Hc, Hs. cbn [bind].
    destruct Hcb as [-> | (-> & [dl ->] & ->)]; reflexivity. }
  split; [exact Hm |]. unfold run_speedtest, try_except. rewrite Hm. reflexivity.
Qed.

Lemma callback_failure_switches_to_cli_witness :
  import_Speedtest (lib host_library) = Ok tt
  /\ (fun _ : string => Raise TypeError : res unit) "Running download test..."
     = Raise TypeError
  /\ run_speedtest host_library None
     = Ok {| download_bps := f54e6; upload_bps := f12e6; ping_ms := f8; timestamp := 0 |}
  /\ run_speedtest host_library failing_callback = Raise not_found.
Proof.
  repeat (split; [reflexivity |]). unfold failing_callback.
  rewrite (proj2 (callback_failure_switches_to_cli host_library
                    (fun _ => Raise TypeError) TypeError eq_refl eq_refl eq_refl
                    (or_introl eq_refl))).
  reflexivity.
Defined.

Lemma lstrip_by_all (q : ascii -> bool) (l : list ascii) :
  forallb q l = true -> Text.lstrip_by q l = [].
Proof.
  induction l as [| c l IH]; simpl; [reflexivity |].
  intros H. apply andb_true_iff in H. destruct H as [-> H]. auto.
Qed.

Lemma strip_blank (s : string) :
  forallb Text.is_space (Text.chars s) = true -> Text.strip s = "".
Proof.
  intros H. unfold Text.strip, Text.strip_by. rewrite (lstrip_by_all _ _ H). reflexivity.
Qed.

(** X11. When the standard output holds nothing but whitespace, the
    document is read from the standard error. *)
Theorem blank_stdout_reads_stderr (h : host) (n : nat) (args : list string)
  (proc : completed) :
  spawn h n (Argv args) speedtest_kwargs = Ok proc ->
  forallb Text.is_space (Text.chars (stdout proc)) = true ->
  attempt h n args
  = (let* data := json_loads h (Text.strip (stderr proc)) in normalize data (now h)).
Proof.
  intros Hs Hblank. unfold attempt. rewrite Hs. cbn [bind].
  rewrite (strip_blank _ Hblank). reflexivity.
Qed.

Lemma blank_stdout_reads_stderr_witness :
  spawn host_stderr 0 (Argv ["/usr/bin/speedtest"; "--json"]) speedtest_kwargs
  = Ok {| returncode := 0; stdout := " "; stderr := "{...}" |}
  /\ forallb Text.is_space (Text.chars " ") = true
  /\ attempt host_stderr 0 ["/usr/bin/speedtest"; "--json"]
     = Ok {| download_bps := f54e6; upload_bps := f12e6; ping_ms := f12_3;
             timestamp := 0 |}.
Proof.
  repeat (split; [reflexivity |]).
  rewrite (blank_stdout_reads_stderr host_stderr 0 ["/usr/bin/speedtest"; "--json"]
             {| returncode := 0; stdout := " "; stderr := "{...}" |} eq_refl eq_refl).
  reflexivity.
Defined.

(** ** [human_bps] *)

(** X12. The scaling loop of [human_bps] divides at most three times; it
    stops below [Gbps] only on a value that is not at least 1000, and it
    leaves [bps] only for a value that is at least 1000.  More rounds than
    three change nothing. *)
Theorem scale_loop_stops (val : float) (extra : nat) :
  let r := scale_loop (length units) val 0 in
  (snd r <= 3)%nat
  /\ (snd r = 3%nat \/ at_least_1000 (fst r) = false)
  /\ (snd r = 0%nat \/ at_least_1000 val = true)
  /\ scale_loop (3 + extra) val 0 = r.
Proof.
  cbn [units length scale_loop Nat.sub Nat.ltb Nat.leb Nat.add andb].
  destruct (at_least_1000 val) eqn:H0; cbn [andb fst snd];
    [| repeat split; auto].
  set (v1 := SFdiv _ _ val f1000).
  destruct (at_least_1000 v1) eqn:H1; cbn [andb fst snd];
    [| repeat split; auto].
  set (v2 := SFdiv _ _ v1 f1000).
  destruct (at_least_1000 v2) eqn:H2; cbn [andb fst snd];
    [| repeat split; auto].
  set (v3 := SFdiv _ _ v2 f1000).
  rewrite andb_false_r.
  repeat split; auto.
  destruct extra; cbn [scale_loop]; rewrite ?andb_false_r; reflexivity.
Qed.

(** X13. [human_bps] shows [N/A] for [None], raises what [float()] raises
    for a rate that does not convert, shows a rate that is not at least
    1000 (a small, negative or NaN rate) in [bps] as it is, and shows a
    rate of at least 1000 in one of the three larger units. *)
Theorem human_bps_edges (bps : value) :
  human_bps Null = Ok "N/A"
  /\ (forall e, Json.is_none bps = false -> to_float bps = Raise e ->
                human_bps bps = Raise e)
  /\ (forall val, to_float bps = Ok val -> at_least_1000 val = false ->
                  human_bps bps = Ok (Format.fixed 2 val ++ " bps")%string)
  /\ (forall val, to_float bps = Ok val -> at_least_1000 val = true ->
                  exists v u, human_bps bps = Ok (Format.fixed 2 v ++ " " ++ u)%string
                              /\ In u ["Kbps"; "Mbps"; "Gbps"]).
Proof.
  assert (forall val, to_float bps = Ok val -> Json.is_none bps = false) as Hnn
    by (intros val; destruct bps; simpl; congruence).
  split; [reflexivity |]. split; [| split].
  - intros e Hn He. unfold human_bps. rewrite Hn, He. reflexivity.
  - intros val Hv Hlt. unfold human_bps. rewrite (Hnn val Hv), Hv.
    cbn [bind units length scale_loop]. rewrite Hlt. reflexivity.
  - intros val Hv Hge. unfold human_bps. rewrite (Hnn val Hv), Hv.
    cbn [bind units length scale_loop Nat.sub Nat.ltb Nat.leb andb]. rewrite Hge.
    cbn [andb].
    set (v1 := SFdiv _ _ val f1000).
    destruct (at_least_1000 v1); cbn [andb nth];
      [| exists v1, "Kbps"; split; [reflexivity | simpl; auto]].
    set (v2 := SFdiv _ _ v1 f1000).
    destruct (at_least_1000 v2); cbn [andb nth];
      [| exists v2, "Mbps"; split; [reflexivity | simpl; auto]].
    rewrite andb_false_r.
    eexists _, "Gbps". split; [reflexivity | simpl; auto].
Qed.

Lemma human_bps_edges_witness :
  (Json.is_none (Arr []) = false /\ to_float (Arr []) = Raise TypeError
   /\ human_bps (Arr []) = Raise TypeError)
  /\ (to_float (Int (-5000)) = Ok (S754_finite true 5497558138880000 (-40))
      /\ at_least_1000 (S754_finite true 5497558138880000 (-40)) = false
      /\ human_bps (Int (-5000)) = Ok "-5000.00 bps")
  /\ (to_float (Int 54000000) = Ok f54e6 /\ at_least_1000 f54e6 = true
      /\ exists v u, human_bps (Int 54000000) = Ok (Format.fixed 2 v ++ " " ++ u)%string
                     /\ In u ["Kbps"; "Mbps"; "Gbps"]).
Proof.
  split; [| split].
  - repeat (split; [reflexivity |]).
    exact (proj1 (proj2 (human_bps_edges (Arr []))) TypeError eq_refl eq_refl).
  - repeat (split; [reflexivity |]).
    exact (proj1 (proj2 (proj2 (human_bps_edges (Int (-5000))))) _ eq_refl eq_refl).
  - repeat (split; [reflexivity |]).
    exact (proj2 (proj2 (proj2 (human_bps_edges (Int 54000000)))) f54e6 eq_refl eq_refl).
Defined.

(** ** The log *)

Lemma append_assoc (a b c : string) : ((a ++ b) ++ c = a ++ (b ++ c))%string.
Proof.
  induction a as [| x a IH]; [reflexivity |].
  change (String x ((a ++ b) ++ c) = String x (a ++ (b ++ c)))%string.
  f_equal; exact IH.
Qed.

Lemma append_empty (a : string) : (a ++ "" = a)%string.
Proof.
  induction a as [| x a IH]; [reflexivity |].
  change (String x (a ++ "") = String x a)%string. f_equal; exact IH.
Qed.

Lemma chars_append (a b : string) :
  Text.chars (a ++ b)%string = Text.chars a ++ Text.chars b.
Proof.
  unfold Text.chars.
  induction a as [| x a IH]; [reflexivity |].
  change (x :: list_ascii_of_string (a ++ b)%string
          = x :: (list_ascii_of_string a ++ list_ascii_of_string b)).
  f_equal; exact IH.
Qed.

Lemma no_line_feed_append (a b : string) :
  no_line_feed (a ++ b)%string = no_line_feed a && no_line_feed b.
Proof. unfold no_line_feed. rewrite chars_append. apply forallb_app. Qed.

Lemma log_all_text (entries : list (string * string)) :
  forall w, log_text (log_all entries w)
            = (log_text w ++ joined (map entry_text entries))%string.
Proof.
  unfold log_all. induction entries as [| e entries IH]; intros w; simpl.
  - symmetry. apply append_empty.
  - rewrite IH. unfold log, insert_log. cbn [log_text].
    rewrite append_assoc. reflexivity.
Qed.

(** X14. The log is the concatenation of its entries, each closed by a
    backslash and the letter n instead of a line feed: after [clear_log]
    it holds exactly the entries logged since, and as long as times and
    messages hold no line feed the whole log is one line. *)
Theorem log_is_one_line (entries : list (string * string)) (w : window) :
  log_text (log_all entries (clear_log w)) = joined (map entry_text entries)
  /\ (forallb (fun e => no_line_feed (fst e) && no_line_feed (snd e)) entries = true ->
      no_line_feed (log_text w) = true ->
      no_line_feed (log_text (log_all entries w)) = true).
Proof.
  split; [rewrite log_all_text; reflexivity |].
  rewrite log_all_text, no_line_feed_append. intros He ->. simpl.
  induction entries as [| e entries IH]; [reflexivity |].
  simpl in He. apply andb_true_iff in He. destruct He as [He Hes].
  apply andb_true_iff in He. destruct He as [Ht Hm].
  simpl. unfold entry_text at 1.
  rewrite !no_line_feed_append, Ht, Hm, (IH Hes). reflexivity.
Qed.

Lemma log_is_one_line_witness :
  forallb (fun e => no_line_feed (fst e) && no_line_feed (snd e))
    [("2024-01-01 10:00:00", "Link speed: unknown");
     ("2024-01-01 10:00:05", "Speedtest error: x")] = true
  /\ no_line_feed "" = true
  /\ no_line_feed
       (log_text (log_all [("2024-01-01 10:00:00", "Link speed: unknown");
                           ("2024-01-01 10:00:05", "Speedtest error: x")]
                    {| link_var := "--"; ping_var := "Ping: --"; dl_var := "Download: --";
                       ul_var := "Upload: --"; status_var := "Ready"; log_text := "";
                       refresh_btn := true; test_btn := true; dialogs := [] |})) = true.
Proof.
  repeat (split; [reflexivity |]).
  apply (proj2 (log_is_one_line _ _)); reflexivity.
Defined.

(** ** What is, and is not, consulted *)

(** X15. When the library path succeeds its result is returned as it is
    and nothing of the command-line path matters: two hosts with the same
    library and clock give the same result, whatever their executables
    and documents. *)
Theorem library_success_ignores_cli (h h' : host) (cb : callback) (r : SpeedTestResult) :
  lib h' = lib h -> now h' = now h ->
  module_path h cb = Ok r ->
  run_speedtest h cb = Ok r /\ run_speedtest h' cb = Ok r.
Proof.
  intros Hlib Hnow Hm.
  assert (module_path h' cb = module_path h cb) as Hsame
    by (unfold module_path; rewrite Hlib, Hnow; reflexivity).
  unfold run_speedtest, try_except. rewrite Hsame, Hm. split; reflexivity.
Qed.

Lemma library_success_ignores_cli_witness :
  lib host_both = lib host_library /\ now host_both = now host_library
  /\ module_path host_library None
     = Ok {| download_bps := f54e6; upload_bps := f12e6; ping_ms := f8; timestamp := 0 |}
  /\ run_speedtest host_both None
     = Ok {| download_bps := f54e6; upload_bps := f12e6; ping_ms := f8; timestamp := 0 |}.
Proof.
  repeat (split; [reflexivity |]).
  exact (proj2 (library_success_ignores_cli host_library host_both None _
                  eq_refl eq_refl eq_refl)).
Defined.

(** X16. Top-level values need not be JSON numbers: whatever is true for
    Python (a number other than zero, a non-empty string, [true], a
    non-empty list or object) is kept by the lookups and handed to
    [float()], so numeric strings and [true] give a result, and the
    attempt fails exactly when one of the three conversions fails. *)
Theorem top_level_values_are_coerced (m : gmap string value) (d u p : value) (clock : Z) :
  m !! "download" = Some d -> m !! "upload" = Some u -> m !! "ping" = Some p ->
  truthy d = true -> truthy u = true -> truthy p = true ->
  normalize (Obj m) clock
  = (let* fd := to_float d in
     let* fu := to_float u in
     let* fp := to_float p in
     Ok {| download_bps := fd; upload_bps := fu; ping_ms := fp; timestamp := clock |})
  /\ (is_ok (normalize (Obj m) clock)
      = is_ok (to_float d) && is_ok (to_float u) && is_ok (to_float p)).
Proof.
  intros Hd Hu Hp Td Tu Tp.
  rewrite (normalize_top_level m d u p clock Hd Hu Hp Td Tu Tp).
  split; [reflexivity |].
  destruct (to_float d); [| reflexivity].
  destruct (to_float u); [| reflexivity].
  destruct (to_float p); reflexivity.
Qed.

Lemma top_level_values_are_coerced_witness :
  doc_texts !! "download" = Some (Str "54000000")
  /\ doc_texts !! "upload" = Some (Bool true)
  /\ doc_texts !! "ping" = Some (Str "12.3")
  /\ truthy (Str "54000000") = true /\ truthy (Bool true) = true
  /\ truthy (Str "12.3") = true
  /\ normalize (Obj doc_texts) 0
     = Ok {| download_bps := f54e6; upload_bps := f1; ping_ms := f12_3; timestamp := 0 |}.
Proof.
  repeat (split; [reflexivity |]).
  rewrite (proj1 (top_level_values_are_coerced doc_texts (Str "54000000") (Bool true)
                    (Str "12.3") 0 eq_refl eq_refl eq_refl eq_refl eq_refl eq_refl)).
  reflexivity.
Defined.
